(** * dynatrace-github-action: the metric and event translation layer

    A shallow embedding of [src/dynatrace.ts]: the key sanitizers, the
    line-protocol encoder of [sendMetrics], the tag-rule extraction and the
    payload selection of [sendEvents], and the two delivery loops with
    their [try]/[catch] blocks, followed by the properties the
    specification states about them. *)

From Stdlib Require Import Arith NArith List Bool String Ascii Lia.
From Stdlib Require Import Decimal DecimalString.
Import ListNotations.

Local Open Scope N_scope.
Local Open Scope list_scope.

(** ** JavaScript strings *)

(** A JavaScript string is a sequence of UTF-16 code units; [concat] is
    list append and [length] is the number of code units. *)
Definition codeunit := N.
Definition jsstring := list codeunit.

(** [js "..."] is the JavaScript string literal with the given (ASCII)
    characters. *)
Definition js (s : string) : jsstring :=
  map N_of_ascii (list_ascii_of_string s).

Definition dquote : jsstring := [34].
Definition newline : jsstring := [10].
Definition underscore : jsstring := [95].
Definition colon : codeunit := 58.

(** Strict equality [===] of two strings. *)
Fixpoint strictEq (a b : jsstring) : bool :=
  match a, b with
  | [], [] => true
  | x :: a', y :: b' => (x =? y) && strictEq a' b'
  | _, _ => false
  end.

(** A string used as a condition: only the empty string is falsy. *)
Definition truthy (s : jsstring) : bool :=
  match s with [] => false | _ :: _ => true end.

(** Template-literal rendering of a number that is an array length. *)
Definition numberToString (n : nat) : jsstring :=
  js (NilZero.string_of_uint (Nat.to_uint n)).

(** Template-literal rendering of a property that may be [undefined]. *)
Definition render (v : option jsstring) : jsstring :=
  match v with Some s => s | None => js "undefined" end.

(** [s.split(sep)] for a one-character separator: the pieces between the
    occurrences of [sep]; a string with no [sep] is a single piece. *)
Fixpoint split (sep : codeunit) (s : jsstring) : list jsstring :=
  match s with
  | [] => [[]]
  | c :: s' =>
      if c =? sep then [] :: split sep s'
      else match split sep s' with
           | p :: ps => (c :: p) :: ps
           | [] => [[c]]
           end
  end.

(** ** Character classes *)

Definition isAscii (c : codeunit) : Prop := c < 128.
Definition isCapital (c : codeunit) : bool := (65 <=? c) && (c <=? 90).

(** The class [[.0-9a-z_-]] as it is written. *)
Definition keyClass (c : codeunit) : bool :=
  (c =? 46) || ((48 <=? c) && (c <=? 57)) || ((97 <=? c) && (c <=? 122))
  || (c =? 95) || (c =? 45).

(** The same class under the [i] flag.  A code unit matches when its
    canonical (upper-cased) form is that of a member; canonicalisation
    never takes a code unit of 128 or more to one below 128, so the
    matching units are the members and the capitals [A-Z]. *)
Definition keyClassIgnoreCase (c : codeunit) : bool :=
  keyClass c || isCapital c.

(** [s.replace(/[^...]/g, r)]: without the [u] flag the pattern is matched
    code unit by code unit, and every unit outside the class is replaced. *)
Definition replaceOutside (cls : codeunit -> bool) (r : jsstring)
  (s : jsstring) : jsstring :=
  flat_map (fun c => if cls c then [c] else r) s.

(** Lower-casing of one ASCII code unit. *)
Definition asciiLower (c : codeunit) : codeunit :=
  if isCapital c then c + 32 else c.

(** ** The encoder *)

(** The entries of a dimensions object, in the order [Object.entries]
    enumerates them. *)
Definition Dimensions := list (jsstring * jsstring).

Record Metric := {
  metric : jsstring;
  value : jsstring;
  dimensions : option Dimensions
}.

(** ** Effects: logging, HTTP and exceptions *)

(** A thrown value: an [Error] with its message.  The errors of the HTTP
    client are errors with a message of the client's choosing. *)
Inductive Exn := JsError (message : jsstring).

(** The client that [getClient] constructs. *)
Record HttpClient := {
  userAgent : jsstring;
  headers : list (jsstring * jsstring)
}.

(** One call of [http.post]. *)
Record Request := {
  client : HttpClient;
  requestUrl : jsstring;
  data : jsstring
}.

(** [res.message], of which the code reads two optional properties. *)
Record IncomingMessage := {
  statusCode : option N;
  statusMessage : option jsstring
}.

(** How an awaited [http.post] ends. *)
Inductive HttpResult :=
| Resolved (message : IncomingMessage)
| Rejected (ex : Exn).

(** The remote side: it answers a request knowing the requests made
    before it, oldest first. *)
Definition Network := list Request -> Request -> HttpResult.

(** What a run leaves behind, oldest first: the lines of [core.info], the
    errors given to [core.error] and the requests posted. *)
Inductive Effect :=
| Info (msg : jsstring)
| Error (ex : Exn)
| Post (req : Request).

Definition Trace := list Effect.

(** The requests of a trace, oldest first. *)
Fixpoint posts (t : Trace) : list Request :=
  match t with
  | [] => []
  | Post req :: t' => req :: posts t'
  | _ :: t' => posts t'
  end.

(** A computation either returns or throws; what it logged and posted up
    to that point stays in the trace. *)
Inductive Outcome (A : Type) :=
| Returned (a : A)
| Thrown (ex : Exn).
Arguments Returned {A} a.
Arguments Thrown {A} ex.

Definition M (A : Type) := Network -> Trace -> Outcome A * Trace.

Definition ret {A} (a : A) : M A := fun _ t => (Returned a, t).

Definition bind {A B} (m : M A) (k : A -> M B) : M B :=
  fun net t =>
    match m net t with
    | (Returned a, t') => k a net t'
    | (Thrown ex, t') => (Thrown ex, t')
    end.

Definition throw {A} (ex : Exn) : M A := fun _ t => (Thrown ex, t).

Definition tryCatch {A} (body : M A) (handler : Exn -> M A) : M A :=
  fun net t =>
    match body net t with
    | (Returned a, t') => (Returned a, t')
    | (Thrown ex, t') => handler ex net t'
    end.

Declare Scope js_scope.
Delimit Scope js_scope with jsm.
Notation "x <- m ;; k" := (bind m (fun x => k))
  (at level 61, m at next level, right associativity) : js_scope.
Notation "m ;; k" := (bind m (fun _ => k))
  (at level 61, right associativity) : js_scope.
Local Open Scope js_scope.

(** [core.info] and [core.error]. *)
Definition info (msg : jsstring) : M unit :=
  fun _ t => (Returned tt, t ++ [Info msg]).

Definition error (ex : Exn) : M unit :=
  fun _ t => (Returned tt, t ++ [Error ex]).

(** [await http.post(url, data)]: the request is made, then the remote
    side's answer is awaited. *)
Definition post (http : HttpClient) (url data : jsstring)
  : M IncomingMessage :=
  fun net t =>
    let req := {| client := http; requestUrl := url; data := data |} in
    match net (posts t) req with
    | Resolved message => (Returned message, t ++ [Post req])
    | Rejected ex => (Thrown ex, t ++ [Post req])
    end.

(** A [for (const x of xs)] loop whose body has effects. *)
Fixpoint forOf {A} (xs : list A) (body : A -> M unit) : M unit :=
  match xs with
  | [] => ret tt
  | x :: xs' => body x ;; forOf xs' body
  end.

Definition getClient (token content : jsstring) : HttpClient :=
  {| userAgent := js "dt-http-client";
     headers := [ (js "Authorization", js "Api-Token " ++ token);
                  (js "Content-Type", content) ] |}.

(** [res.message.statusCode === undefined || res.message.statusCode >= 400] *)
Definition failedStatus (message : IncomingMessage) : bool :=
  match statusCode message with
  | None => true
  | Some code => 400 <=? code
  end.

Definition requestFailed (message : IncomingMessage) : Exn :=
  JsError (js "HTTP request failed: " ++ render (statusMessage message)).

(** The [try] block shared by the two senders, with its [catch]. *)
Definition deliver (http : HttpClient) (url data : jsstring) : M unit :=
  tryCatch
    (res <- post http url data ;;
     if failedStatus res then throw (requestFailed res) else ret tt)
    (fun ex => error ex).

(** ** Events *)

(** The field [dimensions] of an event is [eventDimensions] here, the
    record of metrics having taken the name. *)
Record Event := {
  type : jsstring;
  source : jsstring;
  title : option jsstring;
  description : option jsstring;
  deploymentName : option jsstring;
  deploymentVersion : option jsstring;
  deploymentProject : option jsstring;
  remediationAction : option jsstring;
  ciBackLink : option jsstring;
  entities : option (list jsstring);
  tags : option (list jsstring);
  eventDimensions : option Dimensions
}.

(** The field [value] of a tag is [tagValue] here, and the field [tags]
    of a rule is [ruleTags], for the same reason. *)
Record Tag := {
  context : jsstring;
  key : jsstring;
  tagValue : option jsstring
}.

Record TagAttachRule := {
  meTypes : list jsstring;
  ruleTags : list Tag
}.

Record AttachRules := {
  entityIds : option (list jsstring);
  tagRule : list TagAttachRule
}.

(** The two object literals that [sendEvents] assigns to [payload]. *)
Inductive Payload :=
| StandardEvent
    (eventType : jsstring) (attachRules : AttachRules) (source : jsstring)
    (description title : option jsstring)
    (customProperties : option Dimensions)
| DeploymentEvent
    (eventType : jsstring) (attachRules : AttachRules) (source : jsstring)
    (deploymentName deploymentVersion deploymentProject
     remediationAction ciBackLink : option jsstring)
    (customProperties : option Dimensions).

Definition payloadAttachRules (p : Payload) : AttachRules :=
  match p with
  | StandardEvent _ r _ _ _ _ => r
  | DeploymentEvent _ r _ _ _ _ _ _ _ => r
  end.

Definition payloadCustomProperties (p : Payload) : option Dimensions :=
  match p with
  | StandardEvent _ _ _ _ _ d => d
  | DeploymentEvent _ _ _ _ _ _ _ _ d => d
  end.

(** One round of the loop over [e.tags]: the rule pushed for a tag of two
    or of three parts, nothing for any other. *)
Definition pushTagRule (tagAttachRules : list TagAttachRule) (t : jsstring)
  : list TagAttachRule :=
  match split colon t with
  | [a0; a1] =>
      tagAttachRules ++
        [ {| meTypes := [a0];
             ruleTags := [ {| context := js "CONTEXTLESS"; key := a1;
                              tagValue := None |} ] |} ]
  | [a0; a1; a2] =>
      tagAttachRules ++
        [ {| meTypes := [a0];
             ruleTags := [ {| context := js "CONTEXTLESS"; key := a1;
                              tagValue := Some a2 |} ] |} ]
  | _ => tagAttachRules
  end.

(** The value of [tagAttachRules] after the extraction. *)
Definition extractTagRules (e_tags : option (list jsstring))
  : list TagAttachRule :=
  match e_tags with
  | Some ts => fold_left pushTagRule ts []
  | None => []
  end.

Definition isStandardType (t : jsstring) : bool :=
  strictEq t (js "CUSTOM_INFO") ||
  strictEq t (js "AVAILABILITY_EVENT") ||
  strictEq t (js "ERROR_EVENT") ||
  strictEq t (js "PERFORMANCE_EVENT") ||
  strictEq t (js "RESOURCE_CONTENTION").

Definition standardPayload (e : Event) (tagAttachRules : list TagAttachRule)
  : Payload :=
  StandardEvent (type e)
    {| entityIds := entities e; tagRule := tagAttachRules |}
    (source e) (description e) (title e) (eventDimensions e).

Definition deploymentPayload (e : Event)
  (tagAttachRules : list TagAttachRule) : Payload :=
  DeploymentEvent (type e)
    {| entityIds := entities e; tagRule := tagAttachRules |}
    (source e) (deploymentName e) (deploymentVersion e)
    (deploymentProject e) (remediationAction e) (ciBackLink e)
    (eventDimensions e).

(** The selection of the payload.  [send] is set exactly where [payload]
    is assigned, so the pair is one optional payload. *)
Definition preparePayload (e : Event) (tagAttachRules : list TagAttachRule)
  : M (option Payload) :=
  if isStandardType (type e) then
    info (js "Preparing a standard event") ;;
    ret (Some (standardPayload e tagAttachRules))
  else if strictEq (type e) (js "CUSTOM_DEPLOYMENT") then
    info (js "Preparing a custom deployment event") ;;
    ret (Some (deploymentPayload e tagAttachRules))
  else
    info (js "Unsupported event type!") ;;
    ret None.

(** ** Sample values *)

(** Lower-casing of the ASCII capitals alone: what [toLowerCase] does on
    the strings of ASCII code units. *)
Definition asciiToLowerCase (s : jsstring) : jsstring := map asciiLower s.

(** A rendering that keeps the event type only; the properties below hold
    for every rendering. *)
Definition sketchStringify (p : Payload) : jsstring :=
  match p with
  | StandardEvent ty _ _ _ _ _ => js "{standard:" ++ ty ++ js "}"
  | DeploymentEvent ty _ _ _ _ _ _ _ _ => js "{deployment:" ++ ty ++ js "}"
  end.

Definition exampleUrl : jsstring := js "https://example.live.dynatrace.com".
Definition exampleToken : jsstring := js "dt0c01.sample".

Definition exampleDimensions : Dimensions :=
  [ (js "project", js "dynatrace-github-action"); (js "owner", js "wolfgang") ].

Definition infoEvent : Event :=
  {| type := js "CUSTOM_INFO"; source := js "GitHub";
     title := Some (js "Successful Test");
     description := Some (js "GitHub project was successfully tested");
     deploymentName := None; deploymentVersion := None;
     deploymentProject := None; remediationAction := None;
     ciBackLink := None;
     entities := Some [js "MOBILE_APPLICATION-C061BED4799B41C5"];
     tags := None;
     eventDimensions := Some exampleDimensions |}.

Definition wrongEntityEvent : Event :=
  {| type := js "CUSTOM_INFO"; source := js "GitHub";
     title := Some (js "Failing Event Send Test");
     description := Some (js "GitHub project was successfully tested");
     deploymentName := None; deploymentVersion := None;
     deploymentProject := None; remediationAction := None;
     ciBackLink := None;
     entities := Some [js "WRONG-ENTITY-ID"];
     tags := Some [];
     eventDimensions := Some exampleDimensions |}.

Definition deploymentEvent : Event :=
  {| type := js "CUSTOM_DEPLOYMENT"; source := js "GitHub";
     title := None; description := None;
     deploymentName := Some (js "GitHub Action");
     deploymentVersion := Some (js "refs/heads/main");
     deploymentProject := Some (js "dynatrace-github-action");
     remediationAction := Some (js "None");
     ciBackLink := Some (js "https://github.com/");
     entities := Some [js "MOBILE_APPLICATION-C061BED4799B41C5"];
     tags := Some [js "HOST:env:prod"; js "HOST"];
     eventDimensions := Some exampleDimensions |}.

Definition unknownEvent : Event :=
  {| type := js "UNKNOWN_TYPE"; source := js "GitHub";
     title := Some (js "Ignored"); description := None;
     deploymentName := None; deploymentVersion := None;
     deploymentProject := None; remediationAction := None;
     ciBackLink := None;
     entities := None; tags := None; eventDimensions := None |}.

(** A remote side that refuses the first request and accepts the rest. *)
Definition refuseFirst : Network :=
  fun earlier _ =>
    match earlier with
    | [] => Resolved {| statusCode := Some 400;
                        statusMessage := Some (js "Bad Request") |}
    | _ :: _ => Resolved {| statusCode := Some 200;
                            statusMessage := Some (js "OK") |}
    end.

(** A remote side that accepts everything. *)
Definition acceptAll : Network :=
  fun _ _ => Resolved {| statusCode := Some 200;
                         statusMessage := Some (js "OK") |}.

(** A client that cannot connect. *)
Definition unreachable : Network :=
  fun _ _ => Rejected (JsError (js "connect ECONNREFUSED")).

Section Core.

(** [String.prototype.toLowerCase]: the Unicode default lower-casing of
    the whole string.  It is a parameter; the properties that need
    something of it assume (below) that on ASCII strings it lowers the
    capitals one by one, and that its result holds no ASCII capital. *)
Variable toLowerCase : jsstring -> jsstring.

(** [JSON.stringify] on a payload. *)
Variable JSON_stringify : Payload -> jsstring.

(** *** The sanitizers and the line-protocol encoder *)

Definition safeMetricKey (mkey : jsstring) : jsstring :=
  replaceOutside keyClassIgnoreCase underscore (toLowerCase mkey).

Definition safeDimKey (dkey : jsstring) : jsstring :=
  replaceOutside keyClassIgnoreCase underscore (toLowerCase dkey).

Definition safeDimValue (val : jsstring) : jsstring := val.

(** One round of the inner loop of [sendMetrics] over the entries. *)
Definition appendDimension (lines : jsstring) (entry : jsstring * jsstring)
  : jsstring :=
  let (key, value) := entry in
  if truthy value && Nat.ltb 0 (List.length value) then
    lines ++ js "," ++ safeDimKey key ++ (js "=" ++ dquote)
          ++ safeDimValue value ++ dquote
  else lines.

(** One round of the outer loop of [sendMetrics]. *)
Definition appendMetric (lines : jsstring) (m : Metric) : jsstring :=
  let lines := lines ++ safeMetricKey (metric m) in
  let lines :=
    match dimensions m with
    | Some entries => fold_left appendDimension entries lines
    | None => lines
    end in
  lines ++ js " " ++ value m ++ newline.

(** The value of [lines] when the loop of [sendMetrics] ends. *)
Definition metricLines (metrics : list Metric) : jsstring :=
  fold_left appendMetric metrics [].

(** *** The senders *)

Definition sendMetrics (url token : jsstring) (metrics : list Metric)
  : M unit :=
  info (js "Sending " ++ numberToString (List.length metrics)
          ++ js " metrics") ;;
  let http := getClient token (js "text/plain") in
  let lines := metricLines metrics in
  info lines ;;
  deliver http (url ++ js "/api/v2/metrics/ingest") lines.

(** The body of the loop of [sendEvents]. *)
Definition sendEvent (url : jsstring) (http : HttpClient) (e : Event)
  : M unit :=
  let tagAttachRules := extractTagRules (tags e) in
  payload <- preparePayload e tagAttachRules ;;
  match payload with
  | Some p =>
      info (JSON_stringify p) ;;
      deliver http (url ++ js "/api/v1/events") (JSON_stringify p)
  | None => ret tt
  end.

Definition sendEvents (url token : jsstring) (events : list Event)
  : M unit :=
  info (js "Sending " ++ numberToString (List.length events)
          ++ js " events") ;;
  let http := getClient token (js "application/json") in
  forOf events (sendEvent url http).

(** *** Definitions used to state the properties *)

(** The delivery-failure classification as the specification words it: a
    status code of 400 or more, no status code at all, or an error of the
    connection. *)
Definition deliveryFailure (r : HttpResult) : option Exn :=
  match r with
  | Rejected ex => Some ex
  | Resolved message =>
      match statusCode message with
      | None => Some (requestFailed message)
      | Some code =>
          if 400 <=? code then Some (requestFailed message) else None
      end
  end.

(** What the [catch] block leaves in the trace after a request. *)
Definition deliveryLog (net : Network) (earlier : list Request)
  (req : Request) : list Effect :=
  match deliveryFailure (net earlier req) with
  | Some ex => [Error ex]
  | None => []
  end.

(** Every failed request of the trace is followed at once by the log of
    its error. *)
Definition failuresLogged (net : Network) (t : Trace) : Prop :=
  forall pre req rest ex,
    t = pre ++ Post req :: rest ->
    deliveryFailure (net (posts pre) req) = Some ex ->
    exists rest', rest = Error ex :: rest'.

(** The rule of one tag as the specification words it: by the number of
    parts of the split. *)
Definition rulesOfTag (t : jsstring) : list TagAttachRule :=
  let parts := split colon t in
  let part i := nth i parts [] in
  let tag v := {| context := js "CONTEXTLESS"; key := part 1%nat;
                  tagValue := v |} in
  if Nat.eqb (List.length parts) 2 then
    [ {| meTypes := [part 0%nat]; ruleTags := [tag None] |} ]
  else if Nat.eqb (List.length parts) 3 then
    [ {| meTypes := [part 0%nat]; ruleTags := [tag (Some (part 2%nat))] |} ]
  else [].

(** The rule with one match type and one contextless tag. *)
Definition tagRuleFor (matchType key : jsstring) (v : option jsstring)
  : TagAttachRule :=
  {| meTypes := [matchType];
     ruleTags := [ {| context := js "CONTEXTLESS"; key := key;
                      tagValue := v |} ] |}.

(** The first part of a split, which always has one. *)
Definition firstPart (t : jsstring) : jsstring := nth 0 (split colon t) [].

Definition standardTypes : list jsstring :=
  [ js "CUSTOM_INFO"; js "AVAILABILITY_EVENT"; js "ERROR_EVENT";
    js "PERFORMANCE_EVENT"; js "RESOURCE_CONTENTION" ].

(** The payload an event produces, if any. *)
Definition payloadOf (e : Event) : option Payload :=
  if isStandardType (type e) then
    Some (standardPayload e (extractTagRules (tags e)))
  else if strictEq (type e) (js "CUSTOM_DEPLOYMENT") then
    Some (deploymentPayload e (extractTagRules (tags e)))
  else None.

(** The request of an event that produces a payload. *)
Definition eventRequest (url token : jsstring) (p : Payload) : Request :=
  {| client := getClient token (js "application/json");
     requestUrl := url ++ js "/api/v1/events";
     data := JSON_stringify p |}.

Definition eventRequests (url token : jsstring) (e : Event)
  : list Request :=
  match payloadOf e with
  | Some p => [eventRequest url token p]
  | None => []
  end.

(** [parts.join(sep)] for a one-character separator, the inverse of
    [split]. *)
Fixpoint join (sep : codeunit) (parts : list jsstring) : jsstring :=
  match parts with
  | [] => []
  | p :: ps =>
      match ps with
      | [] => p
      | _ :: _ => p ++ sep :: join sep ps
      end
  end.

(** The number of colons of a tag, and the tags that have one or two. *)
Definition colons (t : jsstring) : nat := count_occ N.eq_dec t colon.

Definition oneOrTwoColons (t : jsstring) : bool :=
  Nat.eqb (colons t) 1 || Nat.eqb (colons t) 2.

(** The strings a rule holds, in the order of the tag they come from:
    the match types, then the key and the value of each tag. *)
Definition ruleParts (r : TagAttachRule) : list jsstring :=
  meTypes r ++
  flat_map (fun tg => key tg :: match tagValue tg with
                                | Some v => [v]
                                | None => []
                                end) (ruleTags r).

(** The tag string a rule stands for. *)
Definition tagOfRule (r : TagAttachRule) : jsstring :=
  join colon (ruleParts r).

(** The text one entry of the dimensions adds to a line. *)
Definition dimensionText (entry : jsstring * jsstring) : jsstring :=
  let (k, v) := entry in
  match v with
  | [] => []
  | _ :: _ => js "," ++ safeDimKey k ++ (js "=" ++ dquote) ++ v ++ dquote
  end.

(** The entries of a metric, none when it has no dimensions. *)
Definition metricEntries (m : Metric) : Dimensions :=
  match dimensions m with Some entries => entries | None => [] end.

(** The line of one metric, by the grammar
    [metric.name[,dim.key="value"]* value\n]. *)
Definition metricLine (m : Metric) : jsstring :=
  safeMetricKey (metric m) ++ flat_map dimensionText (metricEntries m)
    ++ js " " ++ value m ++ newline.

(** The number of line ends in a text. *)
Definition lineEnds (s : jsstring) : nat := count_occ N.eq_dec s 10.

(** A metric none of whose value and dimension values holds a line
    end. *)
Definition singleLine (m : Metric) : Prop :=
  ~ In 10 (value m) /\ Forall (fun entry => ~ In 10 (snd entry)) (metricEntries m).

(** The types for which [sendEvents] builds a payload. *)
Definition isSupportedType (ty : jsstring) : bool :=
  isStandardType ty || strictEq ty (js "CUSTOM_DEPLOYMENT").

(** Every error of the trace comes right after a request, and is the
    failure of that request. *)
Definition errorsExplained (net : Network) (t : Trace) : Prop :=
  forall pre ex rest,
    t = pre ++ Error ex :: rest ->
    exists pre' req,
      pre = pre' ++ [Post req] /\
      deliveryFailure (net (posts pre') req) = Some ex.

(** Every request of the trace comes right after the log line that
    shows its body. *)
Definition bodiesLogged (t : Trace) : Prop :=
  forall pre req rest,
    t = pre ++ Post req :: rest ->
    exists pre', pre = pre' ++ [Info (data req)].

(** The metric list of the specification's encoding example. *)
Definition exampleMetrics : list Metric :=
  [ {| metric := js "My.Metric";
       value := js "1.0";
       dimensions := Some [ (js "Proj", js "x"); (js "Empty", []) ] |} ].

(** Closes [Forall isAscii] on a literal. *)
Ltac ascii_literal :=
  repeat (constructor; [reflexivity|]); constructor.

(** ** Properties *)

(** *** Strings and classes *)

Lemma strictEq_true_iff (a b : jsstring) : strictEq a b = true <-> a = b.
Proof.
  revert b; induction a as [|x a IH]; intros [|y b]; simpl; split;
    try discriminate; try reflexivity.
  - intros H. apply andb_true_iff in H as [Hx Hab].
    apply N.eqb_eq in Hx. apply IH in Hab. congruence.
  - intros H. injection H as -> ->.
    rewrite N.eqb_refl. simpl. now apply IH.
Qed.

Lemma strictEq_false_iff (a b : jsstring) : strictEq a b = false <-> a <> b.
Proof.
  rewrite <- strictEq_true_iff. destruct (strictEq a b); split; congruence.
Qed.

Lemma isStandardType_In (t : jsstring) :
  isStandardType t = true <-> In t standardTypes.
Proof using.
  unfold isStandardType, standardTypes.
  rewrite !orb_true_iff, !strictEq_true_iff. simpl. split.
  - intros [[[[H|H]|H]|H]|H]; symmetry in H; auto 6.
  - intros [H|[H|[H|[H|[H|[]]]]]]; symmetry in H; auto 6.
Qed.

Lemma keyClass_not_capital (c : codeunit) :
  keyClass c = true -> isCapital c = false.
Proof.
  unfold keyClass, isCapital. intros H.
  rewrite !orb_true_iff, !andb_true_iff, !N.eqb_eq, !N.leb_le in H.
  apply andb_false_iff. rewrite !N.leb_gt. lia.
Qed.

Lemma keyClass_ascii (c : codeunit) : keyClass c = true -> isAscii c.
Proof.
  unfold keyClass, isAscii. intros H.
  rewrite !orb_true_iff, !andb_true_iff, !N.eqb_eq, !N.leb_le in H. lia.
Qed.

Lemma asciiLower_keyClass (c : codeunit) :
  keyClass c = true -> asciiLower c = c.
Proof.
  intros H. unfold asciiLower. now rewrite (keyClass_not_capital c H).
Qed.

(** What [replaceOutside] leaves is inside the class or comes from the
    replacement. *)
Lemma replaceOutside_Forall (cls : codeunit -> bool) (P : codeunit -> Prop)
  (r s : jsstring) :
  Forall P r -> (forall c, In c s -> cls c = true -> P c) ->
  Forall P (replaceOutside cls r s).
Proof.
  intros Hr. unfold replaceOutside.
  induction s as [|c s IH]; simpl; intros Hs.
  - constructor.
  - apply Forall_app. split.
    + destruct (cls c) eqn:E; [|exact Hr].
      constructor; [|constructor]. apply Hs; auto.
    + apply IH. intros c' Hin. apply Hs. now right.
Qed.

(** A string inside the class is left as it is. *)
Lemma replaceOutside_id (cls : codeunit -> bool) (r s : jsstring) :
  Forall (fun c => cls c = true) s -> replaceOutside cls r s = s.
Proof.
  unfold replaceOutside. induction 1 as [|c s Hc _ IH]; simpl.
  - reflexivity.
  - now rewrite Hc, IH.
Qed.

(** *** The sanitizers *)

Hypothesis toLowerCase_ascii :
  forall s, Forall isAscii s -> toLowerCase s = map asciiLower s.

Hypothesis toLowerCase_no_capital :
  forall s, Forall (fun c => isCapital c = false) (toLowerCase s).

Lemma safeMetricKey_keyClass (s : jsstring) :
  Forall (fun c => keyClass c = true) (safeMetricKey s).
Proof.
  unfold safeMetricKey. apply replaceOutside_Forall.
  - repeat constructor.
  - intros c Hin Hc. unfold keyClassIgnoreCase in Hc.
    apply orb_true_iff in Hc as [Hc|Hc]; [exact Hc|].
    pose proof (toLowerCase_no_capital s) as Hlow.
    rewrite Forall_forall in Hlow. rewrite (Hlow c Hin) in Hc. discriminate.
Qed.

(** C8: the sanitizer returns, for every string, a string of characters
    of [[.0-9a-z_-]] only, with no capital letter in it, and applying it
    twice gives what applying it once gives. *)
Theorem safeMetricKey_sanitizes (s : jsstring) :
  Forall (fun c => keyClass c = true) (safeMetricKey s) /\
  Forall (fun c => isCapital c = false) (safeMetricKey s) /\
  safeMetricKey (safeMetricKey s) = safeMetricKey s.
Proof.
  pose proof (safeMetricKey_keyClass s) as Hk.
  split; [exact Hk|]. split.
  - eapply Forall_impl; [|exact Hk]. apply keyClass_not_capital.
  - unfold safeMetricKey at 1.
    rewrite toLowerCase_ascii.
    + rewrite (map_ext_in asciiLower (fun c => c)).
      * rewrite map_id. apply replaceOutside_id.
        eapply Forall_impl; [|exact Hk].
        intros c Hc. unfold keyClassIgnoreCase. now rewrite Hc.
      * rewrite Forall_forall in Hk.
        intros c Hin. apply asciiLower_keyClass. now apply Hk.
    + eapply Forall_impl; [|exact Hk]. apply keyClass_ascii.
Qed.

(** C9: the sanitizer of metric names and the sanitizer of dimension keys
    give the same result on every string. *)
Theorem safeMetricKey_safeDimKey (s : jsstring) :
  safeMetricKey s = safeDimKey s.
Proof. unfold safeMetricKey, safeDimKey. reflexivity. Qed.

(** *** The encoder *)

(** C1: the encoding of the one-metric list with name [My.Metric], value
    [1.0] and dimensions [Proj = x], [Empty = ""] is exactly
    [my.metric,proj="x" 1.0] followed by a newline. *)
Theorem metricLines_example :
  metricLines exampleMetrics =
  js "my.metric,proj=" ++ dquote ++ js "x" ++ dquote ++ js " 1.0" ++ newline.
Proof.
  unfold metricLines, exampleMetrics, appendMetric; simpl.
  unfold safeMetricKey, safeDimKey.
  rewrite !toLowerCase_ascii by ascii_literal.
  reflexivity.
Qed.

(** An empty metric list is encoded as the empty string. *)
Lemma metricLines_nil : metricLines [] = [].
Proof. reflexivity. Qed.

(** The loop works line by line: the lines of the metrics already seen
    are a prefix of the result. *)
Lemma fold_appendDimension_prefix (entries : Dimensions) (lines : jsstring) :
  fold_left appendDimension entries lines =
  lines ++ fold_left appendDimension entries [].
Proof.
  revert lines. induction entries as [|[k v] entries IH]; intros lines;
    cbn [fold_left].
  - now rewrite app_nil_r.
  - rewrite (IH (appendDimension lines (k, v))).
    rewrite (IH (appendDimension [] (k, v))).
    unfold appendDimension.
    destruct (truthy v && Nat.ltb 0 (List.length v)).
    + now rewrite <- !app_assoc.
    + reflexivity.
Qed.

Lemma appendMetric_prefix (lines : jsstring) (m : Metric) :
  appendMetric lines m = lines ++ appendMetric [] m.
Proof.
  unfold appendMetric. destruct (dimensions m) as [entries|].
  - rewrite (fold_appendDimension_prefix entries (lines ++ _)).
    rewrite (fold_appendDimension_prefix entries ([] ++ _)).
    now rewrite <- !app_assoc.
  - now rewrite <- !app_assoc.
Qed.

Lemma fold_appendMetric_prefix (metrics : list Metric) (lines : jsstring) :
  fold_left appendMetric metrics lines = lines ++ metricLines metrics.
Proof.
  unfold metricLines. revert lines.
  induction metrics as [|m metrics IH]; intros lines; cbn [fold_left].
  - now rewrite app_nil_r.
  - rewrite (IH (appendMetric lines m)), (IH (appendMetric [] m)).
    rewrite (appendMetric_prefix lines m). now rewrite app_assoc.
Qed.

Lemma metricLines_cons (m : Metric) (metrics : list Metric) :
  metricLines (m :: metrics) = appendMetric [] m ++ metricLines metrics.
Proof.
  unfold metricLines at 1. cbn [fold_left]. apply fold_appendMetric_prefix.
Qed.

(** *** Tag rules *)

(** A round of the loop adds the rules of its tag at the end. *)
Lemma pushTagRule_app (acc : list TagAttachRule) (t : jsstring) :
  pushTagRule acc t = acc ++ rulesOfTag t.
Proof.
  unfold pushTagRule, rulesOfTag.
  destruct (split colon t) as [|a0 [|a1 [|a2 [|a3 parts]]]]; simpl;
    now rewrite ?app_nil_r.
Qed.

Lemma fold_pushTagRule (ts : list jsstring) (acc : list TagAttachRule) :
  fold_left pushTagRule ts acc = acc ++ flat_map rulesOfTag ts.
Proof.
  revert acc. induction ts as [|t ts IH]; intros acc; cbn [fold_left flat_map].
  - now rewrite app_nil_r.
  - now rewrite IH, pushTagRule_app, app_assoc.
Qed.

Lemma rulesOfTag_two (t a0 a1 : jsstring) :
  split colon t = [a0; a1] -> rulesOfTag t = [tagRuleFor a0 a1 None].
Proof. unfold rulesOfTag. now intros ->. Qed.

Lemma rulesOfTag_three (t a0 a1 a2 : jsstring) :
  split colon t = [a0; a1; a2] ->
  rulesOfTag t = [tagRuleFor a0 a1 (Some a2)].
Proof. unfold rulesOfTag. now intros ->. Qed.

Lemma rulesOfTag_other (t : jsstring) :
  List.length (split colon t) <> 2%nat ->
  List.length (split colon t) <> 3%nat ->
  rulesOfTag t = [].
Proof.
  unfold rulesOfTag. intros H2 H3.
  apply Nat.eqb_neq in H2, H3. now rewrite H2, H3.
Qed.

(** C4: the extraction maps the tags one by one, in their order, each by
    the parts of its split on the colon: two parts give one rule with the
    second part as key and no value, three parts give one rule with the
    second part as key and the third as value, any other number of parts
    gives no rule. *)
Theorem extractTagRules_by_parts (ts : list jsstring) :
  extractTagRules (Some ts) = flat_map rulesOfTag ts /\
  (forall t a0 a1,
      split colon t = [a0; a1] ->
      pushTagRule [] t = [tagRuleFor a0 a1 None]) /\
  (forall t a0 a1 a2,
      split colon t = [a0; a1; a2] ->
      pushTagRule [] t = [tagRuleFor a0 a1 (Some a2)]) /\
  (forall t,
      List.length (split colon t) <> 2%nat ->
      List.length (split colon t) <> 3%nat ->
      pushTagRule [] t = []).
Proof.
  split; [apply (fold_pushTagRule ts [])|].
  split; [|split].
  - intros t a0 a1 H. rewrite pushTagRule_app. now apply rulesOfTag_two.
  - intros t a0 a1 a2 H. rewrite pushTagRule_app. now apply rulesOfTag_three.
  - intros t H2 H3. rewrite pushTagRule_app. now apply rulesOfTag_other.
Qed.

Lemma rulesOfTag_shape (t : jsstring) (r : TagAttachRule) :
  In r (rulesOfTag t) ->
  meTypes r = [firstPart t] /\
  Forall (fun tg => context tg = js "CONTEXTLESS") (ruleTags r).
Proof.
  unfold rulesOfTag, firstPart.
  destruct (Nat.eqb (List.length (split colon t)) 2);
    [|destruct (Nat.eqb (List.length (split colon t)) 3)];
    simpl; intros H; try contradiction;
    destruct H as [<-|[]]; simpl; split; auto.
Qed.

(** C5: a tag of two or of three parts gives exactly one rule; every rule
    extracted has as [meTypes] the one-element sequence of the first part
    of its tag, and every tag in it has the context [CONTEXTLESS]. *)
Theorem tagAttachRule_shape (ts : list jsstring) :
  (forall t,
      List.length (split colon t) = 2%nat \/
      List.length (split colon t) = 3%nat ->
      exists r, extractTagRules (Some [t]) = [r] /\
                meTypes r = [firstPart t] /\
                Forall (fun tg => context tg = js "CONTEXTLESS")
                       (ruleTags r)) /\
  (forall r,
      In r (extractTagRules (Some ts)) ->
      exists t, In t ts /\ meTypes r = [firstPart t] /\
                Forall (fun tg => context tg = js "CONTEXTLESS")
                       (ruleTags r)).
Proof.
  split.
  - intros t Hlen. unfold extractTagRules. cbn [fold_left].
    rewrite pushTagRule_app. cbn [app].
    assert (exists r, rulesOfTag t = [r]) as [r Hr].
    { unfold rulesOfTag. destruct Hlen as [-> | ->]; simpl; eauto. }
    exists r. split; [exact Hr|].
    apply (rulesOfTag_shape t). rewrite Hr. now left.
  - intros r Hin. unfold extractTagRules in Hin.
    rewrite fold_pushTagRule in Hin. cbn [app] in Hin.
    apply in_flat_map in Hin as (t & Ht & Hr).
    exists t. split; [exact Ht|]. now apply rulesOfTag_shape.
Qed.

(** *** Traces *)

Lemma posts_app (t u : Trace) : posts (t ++ u) = posts t ++ posts u.
Proof.
  induction t as [|[msg|ex|req] t IH]; simpl; auto. now rewrite IH.
Qed.

Lemma posts_deliveryLog (net : Network) (earlier : list Request)
  (req : Request) : posts (deliveryLog net earlier req) = [].
Proof. unfold deliveryLog. now destruct (deliveryFailure _). Qed.

Lemma failuresLogged_nil (net : Network) : failuresLogged net [].
Proof. intros [|x pre] req rest ex H; discriminate. Qed.

(** The property is kept by an extension whose own failed requests are
    followed by their errors. *)
Lemma failuresLogged_app (net : Network) (t u : Trace) :
  failuresLogged net t ->
  (forall pre req rest ex,
      u = pre ++ Post req :: rest ->
      deliveryFailure (net (posts (t ++ pre)) req) = Some ex ->
      exists rest', rest = Error ex :: rest') ->
  failuresLogged net (t ++ u).
Proof.
  intros Ht Hu pre req rest ex Heq Hfail.
  apply app_eq_app in Heq as [l [[-> Hl] | [-> Hl]]].
  - destruct l as [|y l].
    + simpl in Hl. subst u. apply (Hu [] req rest ex); [reflexivity|].
      rewrite !app_nil_r in *. exact Hfail.
    + simpl in Hl. injection Hl as <- ->.
      destruct (Ht pre req l ex eq_refl Hfail) as [rest' ->].
      now exists (rest' ++ u).
  - apply (Hu l req rest ex); [exact Hl | exact Hfail].
Qed.

Lemma failuresLogged_snoc (net : Network) (t : Trace) (x : Effect) :
  failuresLogged net t -> (forall req, x <> Post req) ->
  failuresLogged net (t ++ [x]).
Proof.
  intros Ht Hx. apply failuresLogged_app; [exact Ht|].
  intros [|y pre] req rest ex Heq _.
  - injection Heq as -> _. now destruct (Hx req).
  - injection Heq as _ Heq. now destruct pre.
Qed.

Lemma failuresLogged_deliver (net : Network) (t : Trace) (req : Request) :
  failuresLogged net t ->
  failuresLogged net (t ++ Post req :: deliveryLog net (posts t) req).
Proof.
  intros Ht. apply failuresLogged_app; [exact Ht|].
  intros [|y pre] r rest ex Heq Hfail.
  - injection Heq as <- <-. rewrite app_nil_r in Hfail.
    unfold deliveryLog. rewrite Hfail. now exists [].
  - injection Heq as _ Heq. unfold deliveryLog in Heq.
    destruct (deliveryFailure _); destruct pre as [|z [|z' pre]];
      discriminate.
Qed.

(** *** Delivery *)

(** The [try] block always returns: it posts the request and, when the
    delivery failed, logs the error. *)
Lemma deliver_run (http : HttpClient) (url data : jsstring)
  (net : Network) (t : Trace) :
  let req := {| client := http; requestUrl := url; data := data |} in
  deliver http url data net t =
  (Returned tt, t ++ Post req :: deliveryLog net (posts t) req).
Proof.
  unfold deliver, tryCatch, bind, post, throw, ret, error, deliveryLog,
    deliveryFailure, failedStatus. simpl.
  destruct (net _ _) as [message|ex]; simpl.
  - destruct (statusCode message) as [code|]; simpl.
    + destruct (400 <=? code); simpl; [now rewrite <- app_assoc | reflexivity].
    + now rewrite <- app_assoc.
  - now rewrite <- app_assoc.
Qed.

(** *** Payload selection *)

Lemma preparePayload_standard (e : Event) (rules : list TagAttachRule)
  (net : Network) (t : Trace) :
  isStandardType (type e) = true ->
  preparePayload e rules net t =
  (Returned (Some (standardPayload e rules)),
   t ++ [Info (js "Preparing a standard event")]).
Proof. unfold preparePayload. now intros ->. Qed.

Lemma standardType_not_deployment (ty : jsstring) :
  strictEq ty (js "CUSTOM_DEPLOYMENT") = true -> isStandardType ty = false.
Proof.
  intros H. apply strictEq_true_iff in H. now subst ty.
Qed.

Lemma preparePayload_deployment (e : Event) (rules : list TagAttachRule)
  (net : Network) (t : Trace) :
  strictEq (type e) (js "CUSTOM_DEPLOYMENT") = true ->
  preparePayload e rules net t =
  (Returned (Some (deploymentPayload e rules)),
   t ++ [Info (js "Preparing a custom deployment event")]).
Proof.
  intros H. unfold preparePayload.
  now rewrite (standardType_not_deployment _ H), H.
Qed.

Lemma preparePayload_unsupported (e : Event) (rules : list TagAttachRule)
  (net : Network) (t : Trace) :
  isStandardType (type e) = false ->
  strictEq (type e) (js "CUSTOM_DEPLOYMENT") = false ->
  preparePayload e rules net t =
  (Returned None, t ++ [Info (js "Unsupported event type!")]).
Proof. unfold preparePayload. now intros -> ->. Qed.

(** Whatever the branch, the selection returns the payload of the event
    and logs one line. *)
Lemma preparePayload_run (e : Event) (net : Network) (t : Trace) :
  exists msg,
    preparePayload e (extractTagRules (tags e)) net t =
    (Returned (payloadOf e), t ++ [Info msg]).
Proof.
  unfold payloadOf.
  destruct (isStandardType (type e)) eqn:Hstd.
  - eexists. now apply preparePayload_standard.
  - destruct (strictEq (type e) (js "CUSTOM_DEPLOYMENT")) eqn:Hdep.
    + eexists. now apply preparePayload_deployment.
    + eexists. now apply preparePayload_unsupported.
Qed.

(** One round of the loop of [sendEvents], for an event that produces a
    payload and for one that does not. *)
Lemma sendEvent_some (url : jsstring) (http : HttpClient) (e : Event)
  (p : Payload) (net : Network) (t : Trace) :
  payloadOf e = Some p ->
  let req := {| client := http; requestUrl := url ++ js "/api/v1/events";
                data := JSON_stringify p |} in
  exists msg,
    sendEvent url http e net t =
    (Returned tt,
     (t ++ [Info msg; Info (JSON_stringify p)])
       ++ Post req
       :: deliveryLog net (posts (t ++ [Info msg; Info (JSON_stringify p)]))
            req).
Proof.
  intros Hp req. destruct (preparePayload_run e net t) as [msg Hrun].
  exists msg. unfold sendEvent, bind. rewrite Hrun, Hp.
  unfold info at 1. cbv beta iota. rewrite deliver_run.
  subst req. now rewrite <- (app_assoc t [Info msg]).
Qed.

Lemma sendEvent_none (url : jsstring) (http : HttpClient) (e : Event)
  (net : Network) (t : Trace) :
  payloadOf e = None ->
  exists msg, sendEvent url http e net t = (Returned tt, t ++ [Info msg]).
Proof.
  intros Hp. destruct (preparePayload_run e net t) as [msg Hrun].
  exists msg. unfold sendEvent, bind. now rewrite Hrun, Hp.
Qed.

Lemma payloadOf_standard (e : Event) :
  In (type e) standardTypes ->
  payloadOf e = Some (standardPayload e (extractTagRules (tags e))).
Proof.
  intros H. apply isStandardType_In in H. unfold payloadOf. now rewrite H.
Qed.

Lemma payloadOf_deployment (e : Event) :
  type e = js "CUSTOM_DEPLOYMENT" ->
  payloadOf e = Some (deploymentPayload e (extractTagRules (tags e))).
Proof.
  intros H. apply strictEq_true_iff in H. unfold payloadOf.
  now rewrite (standardType_not_deployment _ H), H.
Qed.

Lemma payloadOf_unsupported (e : Event) :
  ~ In (type e) standardTypes -> type e <> js "CUSTOM_DEPLOYMENT" ->
  payloadOf e = None.
Proof.
  intros Hstd Hdep. unfold payloadOf.
  destruct (isStandardType (type e)) eqn:E.
  - apply isStandardType_In in E. contradiction.
  - apply strictEq_false_iff in Hdep. now rewrite Hdep.
Qed.

(** A round of the loop whose selection built a payload: the line of the
    selection, the line of the rendering, the request, and what the
    [catch] block adds. *)
Lemma sendEvent_built (url : jsstring) (http : HttpClient) (e : Event)
  (p : Payload) (msg : jsstring) (net : Network) (t : Trace) :
  preparePayload e (extractTagRules (tags e)) net t
    = (Returned (Some p), t ++ [Info msg]) ->
  let req := {| client := http; requestUrl := url ++ js "/api/v1/events";
                data := JSON_stringify p |} in
  sendEvent url http e net t =
  (Returned tt,
   t ++ [Info msg; Info (JSON_stringify p); Post req]
     ++ deliveryLog net (posts t) req).
Proof.
  intros Hrun req. unfold sendEvent, bind. rewrite Hrun.
  unfold info at 1. cbv beta iota. rewrite deliver_run. fold req.
  rewrite !posts_app. cbn [posts]. rewrite !app_nil_r.
  now rewrite <- !app_assoc.
Qed.

(** C2: in a round of the loop of [sendEvents], an event of one of the
    five standard types gets the standard payload, whose custom properties
    are the dimensions of the event, and that payload is what the round
    logs and posts; an event of type [CUSTOM_DEPLOYMENT] gets the
    deployment payload with the five deployment fields of the event, and
    that payload is what the round logs and posts; for any other type no
    payload is built and the round logs one line and posts nothing. *)
Theorem sendEvent_classification (url : jsstring) (http : HttpClient)
  (e : Event) (net : Network) (t : Trace) :
  let rules := extractTagRules (tags e) in
  let request := fun p =>
    {| client := http; requestUrl := url ++ js "/api/v1/events";
       data := JSON_stringify p |} in
  (In (type e) standardTypes ->
     let p := StandardEvent (type e)
                {| entityIds := entities e; tagRule := rules |}
                (source e) (description e) (title e) (eventDimensions e) in
     fst (preparePayload e rules net t) = Returned (Some p) /\
     payloadCustomProperties p = eventDimensions e /\
     sendEvent url http e net t =
       (Returned tt,
        t ++ [ Info (js "Preparing a standard event");
               Info (JSON_stringify p); Post (request p) ]
          ++ deliveryLog net (posts t) (request p)) /\
     posts (snd (sendEvent url http e net t)) = posts t ++ [request p]) /\
  (type e = js "CUSTOM_DEPLOYMENT" ->
     let p := DeploymentEvent (type e)
                {| entityIds := entities e; tagRule := rules |}
                (source e) (deploymentName e) (deploymentVersion e)
                (deploymentProject e) (remediationAction e)
                (ciBackLink e) (eventDimensions e) in
     fst (preparePayload e rules net t) = Returned (Some p) /\
     sendEvent url http e net t =
       (Returned tt,
        t ++ [ Info (js "Preparing a custom deployment event");
               Info (JSON_stringify p); Post (request p) ]
          ++ deliveryLog net (posts t) (request p)) /\
     posts (snd (sendEvent url http e net t)) = posts t ++ [request p]) /\
  (~ In (type e) standardTypes -> type e <> js "CUSTOM_DEPLOYMENT" ->
     fst (preparePayload e rules net t) = Returned None /\
     sendEvent url http e net t =
       (Returned tt, t ++ [Info (js "Unsupported event type!")]) /\
     fst (sendEvent url http e net t) = Returned tt /\
     posts (snd (sendEvent url http e net t)) = posts t).
Proof.
  intros rules request. split; [|split].
  - intros H p. apply isStandardType_In in H.
    pose proof (preparePayload_standard e rules net t H) as Hrun.
    pose proof (sendEvent_built url http e _ _ net t Hrun) as Hsend.
    cbv zeta in Hsend. fold p in Hsend. fold (request p) in Hsend.
    rewrite Hrun, Hsend. cbn [fst snd]. repeat split.
    rewrite !posts_app. cbn [posts]. rewrite posts_deliveryLog.
    now rewrite app_nil_r.
  - intros H p. apply strictEq_true_iff in H.
    pose proof (preparePayload_deployment e rules net t H) as Hrun.
    pose proof (sendEvent_built url http e _ _ net t Hrun) as Hsend.
    cbv zeta in Hsend. fold p in Hsend. fold (request p) in Hsend.
    rewrite Hrun, Hsend. cbn [fst snd]. repeat split.
    rewrite !posts_app. cbn [posts]. rewrite posts_deliveryLog.
    now rewrite app_nil_r.
  - intros Hstd Hdep.
    assert (isStandardType (type e) = false) as Hs.
    { destruct (isStandardType (type e)) eqn:E; [|reflexivity].
      apply isStandardType_In in E. contradiction. }
    apply strictEq_false_iff in Hdep.
    pose proof (preparePayload_unsupported e rules net t Hs Hdep) as Hrun.
    assert (sendEvent url http e net t =
            (Returned tt, t ++ [Info (js "Unsupported event type!")]))
      as Hsend by (unfold sendEvent, bind; fold rules; now rewrite Hrun).
    rewrite Hrun, Hsend. cbn [fst snd]. repeat split.
    rewrite posts_app. cbn [posts]. now rewrite app_nil_r.
Qed.

(** C10: an event of a supported type whose tags are absent or empty is
    not skipped: its payload is built with an empty [tagRule] and is
    posted. *)
Theorem sendEvent_without_tags (url : jsstring) (http : HttpClient)
  (e : Event) (net : Network) (t : Trace) :
  In (type e) standardTypes \/ type e = js "CUSTOM_DEPLOYMENT" ->
  tags e = None \/ tags e = Some [] ->
  exists p,
    fst (preparePayload e (extractTagRules (tags e)) net t)
      = Returned (Some p) /\
    tagRule (payloadAttachRules p) = [] /\
    fst (sendEvent url http e net t) = Returned tt /\
    posts (snd (sendEvent url http e net t)) =
      posts t ++ [ {| client := http;
                      requestUrl := url ++ js "/api/v1/events";
                      data := JSON_stringify p |} ].
Proof.
  intros Hty Htags.
  assert (extractTagRules (tags e) = []) as Hrules
    by (destruct Htags as [-> | ->]; reflexivity).
  assert (exists p, payloadOf e = Some p /\ tagRule (payloadAttachRules p) = [])
    as (p & Hp & Hrule).
  { destruct Hty as [H|H].
    - eexists. split; [now apply payloadOf_standard|]. exact Hrules.
    - eexists. split; [now apply payloadOf_deployment|]. exact Hrules. }
  exists p.
  destruct (preparePayload_run e net t) as [msg Hrun].
  destruct (sendEvent_some url http e p net t Hp) as [msg' Hsend].
  rewrite Hrun, Hsend, Hp. simpl. repeat split; auto.
  rewrite !posts_app. simpl. rewrite posts_deliveryLog.
  now rewrite app_nil_r.
Qed.

(** *** The loops *)

(** A loop runs its first round, then the rest from the trace the first
    round left; a round that throws ends the loop. *)
Lemma forOf_cons {A} (x : A) (xs : list A) (body : A -> M unit)
  (net : Network) (t : Trace) :
  forOf (x :: xs) body net t =
  match body x net t with
  | (Returned _, t') => forOf xs body net t'
  | (Thrown ex, t') => (Thrown ex, t')
  end.
Proof. reflexivity. Qed.

Lemma forOf_sendEvent (url token : jsstring) (events : list Event)
  (net : Network) (t : Trace) :
  let run := forOf events
               (sendEvent url (getClient token (js "application/json")))
               net t in
  fst run = Returned tt /\
  posts (snd run) = posts t ++ flat_map (eventRequests url token) events /\
  (failuresLogged net t -> failuresLogged net (snd run)).
Proof.
  revert t. induction events as [|e events IH]; intros t; cbn zeta.
  - simpl. rewrite app_nil_r. auto.
  - rewrite forOf_cons. cbn [flat_map].
    destruct (payloadOf e) as [p|] eqn:Hp.
    + assert (eventRequests url token e = [eventRequest url token p]) as ->
        by (unfold eventRequests; now rewrite Hp).
      destruct (sendEvent_some url (getClient token (js "application/json"))
                  e p net t Hp) as [msg ->].
      match goal with |- context [forOf events _ net ?t'] =>
        specialize (IH t'); cbn zeta in IH;
        destruct IH as (Hret & Hposts & Hlog) end.
      split; [exact Hret|]. split.
      * rewrite Hposts, !posts_app. simpl. rewrite posts_deliveryLog.
        rewrite app_nil_r. unfold eventRequest. simpl.
        now rewrite <- !app_assoc.
      * intros Ht. apply Hlog. apply failuresLogged_deliver.
        change [Info msg; Info (JSON_stringify p)]
          with ([Info msg] ++ [Info (JSON_stringify p)]).
        rewrite app_assoc.
        apply failuresLogged_snoc; [|discriminate].
        apply failuresLogged_snoc; [exact Ht|discriminate].
    + assert (eventRequests url token e = []) as ->
        by (unfold eventRequests; now rewrite Hp).
      destruct (sendEvent_none url (getClient token (js "application/json"))
                  e net t Hp) as [msg ->].
      specialize (IH (t ++ [Info msg])). cbn zeta in IH.
      destruct IH as (Hret & Hposts & Hlog).
      split; [exact Hret|]. split.
      * rewrite Hposts, posts_app. simpl. now rewrite app_nil_r.
      * intros Ht. apply Hlog. apply failuresLogged_snoc;
          [exact Ht|discriminate].
Qed.

Lemma sendMetrics_run (url token : jsstring) (metrics : list Metric)
  (net : Network) :
  let req := {| client := getClient token (js "text/plain");
                requestUrl := url ++ js "/api/v2/metrics/ingest";
                data := metricLines metrics |} in
  sendMetrics url token metrics net [] =
  (Returned tt,
   [ Info (js "Sending " ++ numberToString (List.length metrics)
             ++ js " metrics");
     Info (metricLines metrics);
     Post req ] ++ deliveryLog net [] req).
Proof.
  cbn zeta. unfold sendMetrics, bind, info. cbv beta iota.
  rewrite deliver_run. reflexivity.
Qed.

Lemma sendEvents_run (url token : jsstring) (events : list Event)
  (net : Network) :
  let run := sendEvents url token events net [] in
  fst run = Returned tt /\
  posts (snd run) = flat_map (eventRequests url token) events /\
  failuresLogged net (snd run).
Proof.
  cbn zeta. unfold sendEvents, bind, info. cbv beta iota.
  match goal with |- context [forOf events _ net ?t'] =>
    destruct (forOf_sendEvent url token events net t')
      as (Hret & Hposts & Hlog) end.
  split; [exact Hret|]. split; [exact Hposts|].
  apply Hlog. apply (failuresLogged_snoc net []); [|discriminate].
  apply failuresLogged_nil.
Qed.

(** The three kinds of failed delivery, and no other. *)
Lemma deliveryFailure_cases (r : HttpResult) :
  deliveryFailure r <> None <->
  (exists ex, r = Rejected ex) \/
  (exists message, r = Resolved message /\
     (statusCode message = None \/
      exists code, statusCode message = Some code /\ 400 <= code)).
Proof.
  destruct r as [[[code|] msg]|ex]; simpl.
  - destruct (N.leb_spec 400 code) as [Hle|Hlt]; split.
    + intros _. right. eexists. split; [reflexivity|]. right.
      exists code. split; [reflexivity | exact Hle].
    + discriminate.
    + congruence.
    + intros [[ex H]|(m & H & [Hc|(c & Hc & Hle)])].
      * discriminate.
      * injection H as <-. discriminate.
      * injection H as <-. simpl in Hc. injection Hc as <-. lia.
  - split; [|discriminate]. intros _. right. eexists. split; [reflexivity|].
    now left.
  - split; [|discriminate]. intros _. left. eauto.
Qed.

(** C3: whatever the remote side does, be it a status code of 400 or
    more, no status code or an error thrown by the client, [sendMetrics]
    and [sendEvents] return normally, and every failed request is followed
    in the log by its error. *)
Theorem failures_do_not_propagate (url token : jsstring)
  (metrics : list Metric) (events : list Event) (net : Network) :
  fst (sendMetrics url token metrics net []) = Returned tt /\
  failuresLogged net (snd (sendMetrics url token metrics net [])) /\
  fst (sendEvents url token events net []) = Returned tt /\
  failuresLogged net (snd (sendEvents url token events net [])).
Proof.
  split; [|split].
  - now rewrite sendMetrics_run.
  - rewrite sendMetrics_run. cbn [snd].
    match goal with |- failuresLogged net ([?a; ?b; Post ?r] ++ _) =>
      change (failuresLogged net
                ([a; b] ++ Post r :: deliveryLog net (posts [a; b]) r))
    end.
    apply failuresLogged_deliver.
    apply (failuresLogged_snoc net [_]); [|discriminate].
    apply (failuresLogged_snoc net []); [|discriminate].
    apply failuresLogged_nil.
  - destruct (sendEvents_run url token events net) as (Hret & _ & Hlog).
    split; [exact Hret | exact Hlog].
Qed.

(** C6: whatever the remote side answers, the requests of [sendEvents]
    are those of the events that produce a payload, in the order of the
    events; and a failed request has its error logged before the next
    request is made. *)
Theorem sendEvents_isolation (url token : jsstring) (events : list Event)
  (net : Network) :
  posts (snd (sendEvents url token events net []))
    = flat_map (eventRequests url token) events /\
  (forall pre r1 mid r2 rest ex,
      snd (sendEvents url token events net [])
        = pre ++ Post r1 :: mid ++ Post r2 :: rest ->
      deliveryFailure (net (posts pre) r1) = Some ex ->
      exists mid', mid = Error ex :: mid').
Proof.
  destruct (sendEvents_run url token events net) as (_ & Hposts & Hlog).
  split; [exact Hposts|].
  intros pre r1 mid r2 rest ex Heq Hfail.
  destruct (Hlog pre r1 (mid ++ Post r2 :: rest) ex Heq Hfail) as [rest' H].
  destruct mid as [|x mid]; [discriminate|].
  injection H as -> _. now exists mid.
Qed.

(** C7: for every metric list, [sendMetrics] makes exactly one request:
    to the base with [/api/v2/metrics/ingest] appended, by a client whose
    headers are [Authorization: Api-Token <token>] and
    [Content-Type: text/plain], with the encoded lines as the body. *)
Theorem sendMetrics_one_post (url token : jsstring) (metrics : list Metric)
  (net : Network) :
  posts (snd (sendMetrics url token metrics net [])) =
  [ {| client :=
         {| userAgent := js "dt-http-client";
            headers := [ (js "Authorization", js "Api-Token " ++ token);
                         (js "Content-Type", js "text/plain") ] |};
       requestUrl := url ++ js "/api/v2/metrics/ingest";
       data := metricLines metrics |} ].
Proof.
  rewrite sendMetrics_run. cbn [snd]. rewrite posts_app.
  now rewrite posts_deliveryLog.
Qed.

(** *** Splitting and joining *)

Lemma split_not_nil (sep : codeunit) (s : jsstring) : split sep s <> [].
Proof.
  destruct s as [|c s]; simpl; [discriminate|].
  destruct (c =? sep); [discriminate|].
  destruct (split sep s); discriminate.
Qed.

Lemma split_length (sep : codeunit) (s : jsstring) :
  List.length (split sep s) = S (count_occ N.eq_dec s sep).
Proof.
  induction s as [|c s IH]; simpl; [reflexivity|].
  destruct (N.eqb_spec c sep) as [->|Hne].
  - simpl. rewrite IH. now destruct (N.eq_dec sep sep).
  - destruct (N.eq_dec c sep) as [E|_]; [contradiction|].
    destruct (split sep s); [discriminate IH | exact IH].
Qed.

Lemma join_head (sep c : codeunit) (p : jsstring) (ps : list jsstring) :
  join sep ((c :: p) :: ps) = c :: join sep (p :: ps).
Proof. simpl. now destruct ps. Qed.

Lemma join_split (sep : codeunit) (s : jsstring) :
  join sep (split sep s) = s.
Proof.
  induction s as [|c s IH]; [reflexivity|]. cbn [split].
  pose proof (split_not_nil sep s) as Hne.
  destruct (N.eqb_spec c sep) as [->|_].
  - destruct (split sep s) as [|p ps]; [contradiction|].
    cbn [join app]. cbn [join] in IH. now rewrite IH.
  - destruct (split sep s) as [|p ps]; [contradiction|].
    rewrite join_head. now rewrite IH.
Qed.

Lemma split_no_sep (sep : codeunit) (s : jsstring) :
  Forall (fun p => ~ In sep p) (split sep s).
Proof.
  induction s as [|c s IH]; simpl.
  - constructor; [intros [] | constructor].
  - destruct (N.eqb_spec c sep) as [->|Hne].
    + constructor; [intros [] | exact IH].
    + destruct (split sep s) as [|p ps].
      * constructor; [|constructor]. intros [H|[]]. congruence.
      * inversion IH as [|? ? Hp Hps]; subst. constructor; [|exact Hps].
        intros [H|H]; [congruence | contradiction].
Qed.

(** The parts of the rule of a tag are the parts of its split. *)
Lemma rulesOfTag_parts (t : jsstring) :
  map ruleParts (rulesOfTag t) =
  if oneOrTwoColons t then [split colon t] else [].
Proof.
  unfold rulesOfTag, oneOrTwoColons, colons.
  pose proof (split_length colon t) as Hlen.
  destruct (split colon t) as [|a0 [|a1 [|a2 [|a3 parts]]]];
    simpl in Hlen;
    first [ discriminate Hlen
          | injection Hlen as Hlen; rewrite <- Hlen; reflexivity ].
Qed.

Lemma extractTagRules_parts (ts : list jsstring) :
  map ruleParts (extractTagRules (Some ts)) =
  map (split colon) (filter oneOrTwoColons ts).
Proof.
  unfold extractTagRules. rewrite fold_pushTagRule, app_nil_l.
  induction ts as [|t ts IH]; [reflexivity|].
  cbn [flat_map filter]. rewrite map_app, IH, rulesOfTag_parts.
  now destruct (oneOrTwoColons t).
Qed.

(** X5: joining the parts of the extracted rules with colons gives back
    the tags that have one or two colons, in their order, and nothing
    else; so there are as many rules as such tags. *)
Theorem extractTagRules_round_trip (ts : list jsstring) :
  map tagOfRule (extractTagRules (Some ts)) = filter oneOrTwoColons ts /\
  List.length (extractTagRules (Some ts))
    = List.length (filter oneOrTwoColons ts).
Proof.
  assert (map tagOfRule (extractTagRules (Some ts)) = filter oneOrTwoColons ts)
    as Hmap.
  { unfold tagOfRule. rewrite <- (map_map ruleParts (join colon)).
    rewrite extractTagRules_parts, map_map.
    rewrite (map_ext _ (fun t => t)) by (intros t; apply join_split).
    apply map_id. }
  split; [exact Hmap|].
  rewrite <- Hmap. now rewrite length_map.
Qed.

(** X6: no string held by an extracted rule, match type, key or value,
    has a colon in it. *)
Theorem extractTagRules_no_colon (ts : list jsstring) (r : TagAttachRule) :
  In r (extractTagRules (Some ts)) ->
  Forall (fun part => ~ In colon part) (ruleParts r).
Proof.
  intros Hin. apply (in_map ruleParts) in Hin.
  rewrite extractTagRules_parts in Hin.
  apply in_map_iff in Hin as (t & <- & _). apply split_no_sep.
Qed.

(** *** The lines of the encoder *)

Lemma fold_appendDimension_text (entries : Dimensions) (lines : jsstring) :
  fold_left appendDimension entries lines =
  lines ++ flat_map dimensionText entries.
Proof.
  revert lines. induction entries as [|[k v] entries IH]; intros lines;
    cbn [fold_left flat_map].
  - now rewrite app_nil_r.
  - rewrite IH. unfold appendDimension, dimensionText, safeDimValue.
    destruct v as [|c v]; cbn [truthy andb List.length Nat.ltb Nat.leb].
    + reflexivity.
    + now rewrite <- !app_assoc.
Qed.

Lemma appendMetric_line (lines : jsstring) (m : Metric) :
  appendMetric lines m = lines ++ metricLine m.
Proof.
  unfold appendMetric, metricLine, metricEntries.
  destruct (dimensions m) as [entries|].
  - rewrite fold_appendDimension_text. now rewrite <- !app_assoc.
  - cbn [flat_map app]. now rewrite <- !app_assoc.
Qed.

(** X1: the text of [sendMetrics] is the lines of its metrics one after
    the other, in their order; the line of a metric is its sanitized name,
    then [,key="value"] for each entry whose value is not empty, in the
    order of the entries, then a space, the value and a line end; a metric
    with no dimensions gives the line of one with an empty object. *)
Theorem metricLines_lines (metrics : list Metric) :
  metricLines metrics = flat_map metricLine metrics.
Proof.
  induction metrics as [|m metrics IH]; [reflexivity|].
  rewrite metricLines_cons, appendMetric_line, IH. apply app_nil_l.
Qed.

Lemma lineEnds_app (a b : jsstring) :
  lineEnds (a ++ b) = (lineEnds a + lineEnds b)%nat.
Proof. apply count_occ_app. Qed.

Lemma lineEnds_none (s : jsstring) : ~ In 10 s -> lineEnds s = 0%nat.
Proof. intros H. now apply count_occ_not_In. Qed.

Lemma lineEnds_keyClass (s : jsstring) :
  Forall (fun c => keyClass c = true) s -> lineEnds s = 0%nat.
Proof.
  intros H. apply lineEnds_none. intros Hin.
  rewrite Forall_forall in H. specialize (H 10 Hin). discriminate.
Qed.

Lemma lineEnds_dimensionText (entries : Dimensions) :
  Forall (fun entry => ~ In 10 (snd entry)) entries ->
  lineEnds (flat_map dimensionText entries) = 0%nat.
Proof.
  induction 1 as [|[k v] entries Hv _ IH]; [reflexivity|].
  cbn [flat_map]. rewrite lineEnds_app, IH, Nat.add_0_r.
  unfold dimensionText. destruct v as [|c v]; [reflexivity|].
  rewrite !lineEnds_app.
  rewrite (lineEnds_keyClass (safeDimKey k)) by apply safeMetricKey_keyClass.
  rewrite (lineEnds_none (c :: v)) by exact Hv. reflexivity.
Qed.

Lemma lineEnds_metricLine (m : Metric) :
  singleLine m -> lineEnds (metricLine m) = 1%nat.
Proof.
  intros [Hvalue Hentries]. unfold metricLine. rewrite !lineEnds_app.
  rewrite (lineEnds_keyClass _ (safeMetricKey_keyClass (metric m))).
  rewrite (lineEnds_dimensionText _ Hentries).
  rewrite (lineEnds_none _ Hvalue). reflexivity.
Qed.

(** X2: when no value and no dimension value holds a line end, the text
    has exactly one line end per metric: the names and keys never add
    one. *)
Theorem metricLines_one_line_each (metrics : list Metric) :
  Forall singleLine metrics ->
  lineEnds (metricLines metrics) = List.length metrics.
Proof.
  intros H. induction H as [|m metrics Hm _ IH]; [reflexivity|].
  rewrite metricLines_cons, appendMetric_line, app_nil_l, lineEnds_app, IH.
  now rewrite (lineEnds_metricLine m Hm).
Qed.

(** X3: a name made of characters of [[.0-9a-z_-]] only is left as it
    is. *)
Theorem safeMetricKey_valid_unchanged (s : jsstring) :
  Forall (fun c => keyClass c = true) s -> safeMetricKey s = s.
Proof.
  intros Hs. unfold safeMetricKey. rewrite toLowerCase_ascii.
  - rewrite (map_ext_in asciiLower (fun c => c)).
    + rewrite map_id. apply replaceOutside_id.
      eapply Forall_impl; [|exact Hs].
      intros c Hc. unfold keyClassIgnoreCase. now rewrite Hc.
    + rewrite Forall_forall in Hs.
      intros c Hin. apply asciiLower_keyClass. now apply Hs.
  - eapply Forall_impl; [|exact Hs]. apply keyClass_ascii.
Qed.

(** *** What the log shows *)

(** Where an element of [t ++ u] lies: in [t] or in [u]. *)
Lemma app_split_at {A} (t u pre : list A) (x : A) (rest : list A) :
  t ++ u = pre ++ x :: rest ->
  (exists l, t = pre ++ x :: l /\ rest = l ++ u) \/
  (exists l, pre = t ++ l /\ u = l ++ x :: rest).
Proof.
  intros H. apply app_eq_app in H as [l [[-> Hl] | [-> Hl]]].
  - destruct l as [|y l].
    + right. exists []. rewrite !app_nil_r. split; [reflexivity|].
      now symmetry.
    + injection Hl as -> ->. left. now exists l.
  - right. now exists l.
Qed.

Lemma errorsExplained_nil (net : Network) : errorsExplained net [].
Proof. intros [|x pre] ex rest H; discriminate. Qed.

Lemma errorsExplained_app (net : Network) (t u : Trace) :
  errorsExplained net t ->
  (forall l ex rest,
      u = l ++ Error ex :: rest ->
      exists pre' req,
        t ++ l = pre' ++ [Post req] /\
        deliveryFailure (net (posts pre') req) = Some ex) ->
  errorsExplained net (t ++ u).
Proof.
  intros Ht Hu pre ex rest Heq.
  apply app_split_at in Heq as [[l [Heq _]] | [l [-> Heq]]].
  - exact (Ht pre ex l Heq).
  - exact (Hu l ex rest Heq).
Qed.

Lemma errorsExplained_snoc (net : Network) (t : Trace) (x : Effect) :
  errorsExplained net t -> (forall ex, x <> Error ex) ->
  errorsExplained net (t ++ [x]).
Proof.
  intros Ht Hx. apply errorsExplained_app; [exact Ht|].
  intros [|y l] ex rest Heq.
  - injection Heq as -> _. now destruct (Hx ex).
  - injection Heq as _ Heq. now destruct l.
Qed.

Lemma errorsExplained_deliver (net : Network) (t : Trace) (req : Request) :
  errorsExplained net t ->
  errorsExplained net (t ++ Post req :: deliveryLog net (posts t) req).
Proof.
  intros Ht. apply errorsExplained_app; [exact Ht|].
  intros l ex rest Heq. unfold deliveryLog in Heq.
  destruct (deliveryFailure (net (posts t) req)) as [ex'|] eqn:Hfail.
  - destruct l as [|y [|z l]].
    + discriminate.
    + injection Heq as <- <- _. now exists t, req.
    + injection Heq as _ _ Heq. now destruct l.
  - destruct l as [|y l]; [discriminate|].
    injection Heq as _ Heq. now destruct l.
Qed.

Lemma bodiesLogged_nil : bodiesLogged [].
Proof. intros [|x pre] req rest H; discriminate. Qed.

Lemma bodiesLogged_app (t u : Trace) :
  bodiesLogged t ->
  (forall l req rest,
      u = l ++ Post req :: rest ->
      exists pre', t ++ l = pre' ++ [Info (data req)]) ->
  bodiesLogged (t ++ u).
Proof.
  intros Ht Hu pre req rest Heq.
  apply app_split_at in Heq as [[l [Heq _]] | [l [-> Heq]]].
  - exact (Ht pre req l Heq).
  - exact (Hu l req rest Heq).
Qed.

Lemma bodiesLogged_snoc (t : Trace) (x : Effect) :
  bodiesLogged t -> (forall req, x <> Post req) -> bodiesLogged (t ++ [x]).
Proof.
  intros Ht Hx. apply bodiesLogged_app; [exact Ht|].
  intros [|y l] req rest Heq.
  - injection Heq as -> _. now destruct (Hx req).
  - injection Heq as _ Heq. now destruct l.
Qed.

(** A request made right after the line of its body, with what the
    [catch] block adds. *)
Lemma bodiesLogged_deliver (net : Network) (t : Trace) (req : Request)
  (earlier : list Request) :
  bodiesLogged t ->
  bodiesLogged ((t ++ [Info (data req)])
                  ++ Post req :: deliveryLog net earlier req).
Proof.
  intros Ht. apply bodiesLogged_app.
  - apply bodiesLogged_snoc; [exact Ht | discriminate].
  - intros l r rest Heq. unfold deliveryLog in Heq.
    destruct l as [|y l].
    + injection Heq as <- _. exists t. now rewrite app_nil_r.
    + injection Heq as _ Heq.
      destruct (deliveryFailure _); destruct l as [|z [|z' l]];
        discriminate.
Qed.

Lemma forOf_sendEvent_log (url : jsstring) (http : HttpClient)
  (events : list Event) (net : Network) (t : Trace) :
  let run := forOf events (sendEvent url http) net t in
  (errorsExplained net t -> errorsExplained net (snd run)) /\
  (bodiesLogged t -> bodiesLogged (snd run)).
Proof.
  revert t. induction events as [|e events IH]; intros t; cbn zeta.
  - simpl. auto.
  - rewrite forOf_cons. destruct (payloadOf e) as [p|] eqn:Hp.
    + destruct (sendEvent_some url http e p net t Hp) as [msg ->].
      match goal with |- context [forOf events _ net ?t'] =>
        specialize (IH t'); cbn zeta in IH; destruct IH as (Herr & Hbody)
      end.
      split; intros Ht.
      * apply Herr. apply errorsExplained_deliver.
        change [Info msg; Info (JSON_stringify p)]
          with ([Info msg] ++ [Info (JSON_stringify p)]).
        rewrite app_assoc.
        apply errorsExplained_snoc; [|discriminate].
        apply errorsExplained_snoc; [exact Ht|discriminate].
      * apply Hbody.
        change [Info msg; Info (JSON_stringify p)]
          with ([Info msg] ++ [Info (JSON_stringify p)]).
        rewrite app_assoc.
        apply (bodiesLogged_deliver net (t ++ [Info msg])
                 {| client := http; requestUrl := url ++ js "/api/v1/events";
                    data := JSON_stringify p |}).
        apply bodiesLogged_snoc; [exact Ht|discriminate].
    + destruct (sendEvent_none url http e net t Hp) as [msg ->].
      specialize (IH (t ++ [Info msg])). cbn zeta in IH.
      destruct IH as (Herr & Hbody).
      split; intros Ht.
      * apply Herr. apply errorsExplained_snoc; [exact Ht|discriminate].
      * apply Hbody. apply bodiesLogged_snoc; [exact Ht|discriminate].
Qed.

(** X10: the senders call [core.error] only right after a request, and
    only with the failure of that request: a rejected post, a missing
    status code or a status code of 400 or more. *)
Theorem errors_only_after_failures (url token : jsstring)
  (metrics : list Metric) (events : list Event) (net : Network) :
  errorsExplained net (snd (sendMetrics url token metrics net [])) /\
  errorsExplained net (snd (sendEvents url token events net [])).
Proof.
  split.
  - rewrite sendMetrics_run. cbn [snd].
    match goal with |- errorsExplained net ([?a; ?b; Post ?r] ++ _) =>
      change (errorsExplained net
                ([a; b] ++ Post r :: deliveryLog net (posts [a; b]) r))
    end.
    apply errorsExplained_deliver.
    apply (errorsExplained_snoc net [_]); [|discriminate].
    apply (errorsExplained_snoc net []); [|discriminate].
    apply errorsExplained_nil.
  - unfold sendEvents, bind, info. cbv beta iota.
    apply forOf_sendEvent_log.
    apply (errorsExplained_snoc net []); [|discriminate].
    apply errorsExplained_nil.
Qed.

(** X11: the senders log the body of every request right before they make
    it: the lines of the metrics, the rendering of the payload. *)
Theorem bodies_logged_before_posted (url token : jsstring)
  (metrics : list Metric) (events : list Event) (net : Network) :
  bodiesLogged (snd (sendMetrics url token metrics net [])) /\
  bodiesLogged (snd (sendEvents url token events net [])).
Proof.
  split.
  - rewrite sendMetrics_run. cbn [snd].
    match goal with |- bodiesLogged ([?a; Info ?b; Post ?r] ++ ?d) =>
      change (bodiesLogged (([a] ++ [Info (data r)]) ++ Post r :: d))
    end.
    apply bodiesLogged_deliver.
    apply (bodiesLogged_snoc []); [|discriminate].
    apply bodiesLogged_nil.
  - unfold sendEvents, bind, info. cbv beta iota.
    apply forOf_sendEvent_log.
    apply (bodiesLogged_snoc []); [|discriminate].
    apply bodiesLogged_nil.
Qed.

(** *** The requests of the events *)

Lemma eventRequests_supported (url token : jsstring) (e : Event) :
  List.length (eventRequests url token e)
    = if isSupportedType (type e) then 1%nat else 0%nat.
Proof.
  unfold eventRequests, payloadOf, isSupportedType.
  destruct (isStandardType (type e)); [reflexivity|].
  now destruct (strictEq (type e) (js "CUSTOM_DEPLOYMENT")).
Qed.

(** X7: [sendEvents] makes one request for each event of a supported
    type and none for the others, whatever the remote side answers. *)
Theorem sendEvents_post_count (url token : jsstring) (events : list Event)
  (net : Network) :
  List.length (posts (snd (sendEvents url token events net [])))
    = List.length (filter (fun e => isSupportedType (type e)) events).
Proof.
  destruct (sendEvents_run url token events net) as (_ & -> & _).
  induction events as [|e events IH]; [reflexivity|].
  cbn [flat_map filter]. rewrite length_app, IH, eventRequests_supported.
  now destruct (isSupportedType (type e)).
Qed.

(** X8: every request of [sendEvents] goes to the base with
    [/api/v1/events] appended, by a client whose headers are
    [Authorization: Api-Token <token>] and
    [Content-Type: application/json]. *)
Theorem sendEvents_requests (url token : jsstring) (events : list Event)
  (net : Network) :
  Forall (fun req =>
            requestUrl req = url ++ js "/api/v1/events" /\
            headers (client req) =
              [ (js "Authorization", js "Api-Token " ++ token);
                (js "Content-Type", js "application/json") ])
         (posts (snd (sendEvents url token events net []))).
Proof.
  destruct (sendEvents_run url token events net) as (_ & -> & _).
  apply Forall_flat_map. apply Forall_forall. intros e _.
  unfold eventRequests. destruct (payloadOf e); repeat constructor.
Qed.

(** X9: for an event of a supported type, whatever its tags, the round
    of the loop returns and makes one request, whose body is the
    rendering of a payload that has the type and the source of the event,
    its entities as they are, the rules extracted from its tags and its
    dimensions as custom properties. *)
Theorem sendEvent_posts_event (url : jsstring) (http : HttpClient)
  (e : Event) (net : Network) (t : Trace) :
  isSupportedType (type e) = true ->
  exists p,
    fst (sendEvent url http e net t) = Returned tt /\
    posts (snd (sendEvent url http e net t)) =
      posts t ++ [ {| client := http;
                      requestUrl := url ++ js "/api/v1/events";
                      data := JSON_stringify p |} ] /\
    payloadAttachRules p =
      {| entityIds := entities e; tagRule := extractTagRules (tags e) |} /\
    payloadCustomProperties p = eventDimensions e /\
    (p = standardPayload e (extractTagRules (tags e)) \/
     p = deploymentPayload e (extractTagRules (tags e))).
Proof.
  intros Hty.
  assert (exists p, payloadOf e = Some p /\
            (p = standardPayload e (extractTagRules (tags e)) \/
             p = deploymentPayload e (extractTagRules (tags e))))
    as (p & Hp & Hshape).
  { unfold payloadOf. unfold isSupportedType in Hty.
    destruct (isStandardType (type e)); [eauto|].
    destruct (strictEq (type e) (js "CUSTOM_DEPLOYMENT"));
      [eauto | discriminate]. }
  exists p. destruct (sendEvent_some url http e p net t Hp) as [msg ->].
  cbn [fst snd]. split; [reflexivity|]. split.
  - rewrite !posts_app. cbn [posts]. rewrite posts_deliveryLog.
    cbn [app]. now rewrite app_nil_r.
  - destruct Hshape as [-> | ->]; auto.
Qed.

(** X12: when the remote side answers the request of [sendMetrics] with a
    status code below 400, the run ends with the request: two log lines,
    the request, and no error. *)
Theorem sendMetrics_accepted (url token : jsstring) (metrics : list Metric)
  (net : Network) (message : IncomingMessage) (code : N) :
  let req := {| client := getClient token (js "text/plain");
                requestUrl := url ++ js "/api/v2/metrics/ingest";
                data := metricLines metrics |} in
  net [] req = Resolved message ->
  statusCode message = Some code ->
  code < 400 ->
  sendMetrics url token metrics net [] =
  (Returned tt,
   [ Info (js "Sending " ++ numberToString (List.length metrics)
             ++ js " metrics");
     Info (metricLines metrics);
     Post req ]).
Proof.
  intros req Hnet Hcode Hlt. rewrite sendMetrics_run. fold req.
  unfold deliveryLog, deliveryFailure. rewrite Hnet, Hcode.
  destruct (N.leb_spec 400 code); [lia | reflexivity].
Qed.

End Core.

(** ** The properties at sample values *)

(** The ASCII lower-casing has the two properties asked of
    [toLowerCase]. *)
Lemma asciiToLowerCase_ascii (s : jsstring) :
  Forall isAscii s -> asciiToLowerCase s = map asciiLower s.
Proof. reflexivity. Qed.

Lemma asciiLower_not_capital (c : codeunit) : isCapital (asciiLower c) = false.
Proof.
  unfold asciiLower. destruct (isCapital c) eqn:E; [|exact E].
  unfold isCapital in *. apply andb_true_iff in E as [Hlo Hhi].
  apply N.leb_le in Hlo, Hhi. apply andb_false_iff. right.
  apply N.leb_gt. lia.
Qed.

Lemma asciiToLowerCase_no_capital (s : jsstring) :
  Forall (fun c => isCapital c = false) (asciiToLowerCase s).
Proof.
  unfold asciiToLowerCase. apply Forall_forall. intros c Hin.
  apply in_map_iff in Hin as (c' & <- & _). apply asciiLower_not_capital.
Qed.

Example safeMetricKey_example :
  safeMetricKey asciiToLowerCase (js "Build Time (ms)") = js "build_time__ms_".
Proof. reflexivity. Qed.

(** A code unit outside ASCII is replaced by one underscore. *)
Example safeMetricKey_non_ascii :
  safeMetricKey asciiToLowerCase [103; 233; 8364; 55357; 56832] = js "g____".
Proof. reflexivity. Qed.

Lemma metricLines_example_witness :
  metricLines asciiToLowerCase exampleMetrics =
  js "my.metric,proj=" ++ dquote ++ js "x" ++ dquote ++ js " 1.0" ++ newline.
Proof.
  exact (metricLines_example asciiToLowerCase asciiToLowerCase_ascii).
Defined.

Lemma safeMetricKey_sanitizes_witness :
  Forall (fun c => keyClass c = true)
    (safeMetricKey asciiToLowerCase (js "Build Time (ms)")) /\
  Forall (fun c => isCapital c = false)
    (safeMetricKey asciiToLowerCase (js "Build Time (ms)")) /\
  safeMetricKey asciiToLowerCase
    (safeMetricKey asciiToLowerCase (js "Build Time (ms)"))
  = safeMetricKey asciiToLowerCase (js "Build Time (ms)").
Proof.
  exact (safeMetricKey_sanitizes asciiToLowerCase asciiToLowerCase_ascii
           asciiToLowerCase_no_capital (js "Build Time (ms)")).
Defined.

(** The tags of the specification's extraction example. *)
Example extractTagRules_example :
  extractTagRules
    (Some [js "HOST:env"; js "HOST"; js "HOST:env:prod"; js "A:B:C:D"])
  = [ tagRuleFor (js "HOST") (js "env") None;
      tagRuleFor (js "HOST") (js "env") (Some (js "prod")) ].
Proof. reflexivity. Qed.

Lemma extractTagRules_by_parts_witness :
  pushTagRule [] (js "HOST:env") = [tagRuleFor (js "HOST") (js "env") None] /\
  pushTagRule [] (js "HOST:env:prod")
    = [tagRuleFor (js "HOST") (js "env") (Some (js "prod"))] /\
  pushTagRule [] (js "HOST") = [] /\
  pushTagRule [] (js "A:B:C:D") = [].
Proof.
  destruct (extractTagRules_by_parts []) as (_ & Htwo & Hthree & Hother).
  split; [|split; [|split]].
  - apply Htwo. reflexivity.
  - apply Hthree. reflexivity.
  - apply Hother; simpl; lia.
  - apply Hother; simpl; lia.
Defined.

Lemma tagAttachRule_shape_witness :
  exists r,
    extractTagRules (Some [js "HOST:env:prod"]) = [r] /\
    meTypes r = [firstPart (js "HOST:env:prod")] /\
    Forall (fun tg => context tg = js "CONTEXTLESS") (ruleTags r).
Proof.
  apply (proj1 (tagAttachRule_shape [])). right. reflexivity.
Defined.

Lemma sendEvent_classification_witness :
  (fst (preparePayload infoEvent [] refuseFirst [])
     = Returned (Some (standardPayload infoEvent [])) /\
   payloadCustomProperties (standardPayload infoEvent [])
     = Some exampleDimensions /\
   sendEvent sketchStringify exampleUrl
     (getClient exampleToken (js "application/json")) infoEvent
     refuseFirst []
   = (Returned tt,
      [ Info (js "Preparing a standard event");
        Info (js "{standard:CUSTOM_INFO}");
        Post (eventRequest sketchStringify exampleUrl exampleToken
                (standardPayload infoEvent []));
        Error (JsError (js "HTTP request failed: Bad Request")) ]) /\
   posts (snd (sendEvent sketchStringify exampleUrl
                 (getClient exampleToken (js "application/json")) infoEvent
                 refuseFirst []))
   = [ eventRequest sketchStringify exampleUrl exampleToken
         (standardPayload infoEvent []) ]) /\
  (fst (preparePayload deploymentEvent
          [tagRuleFor (js "HOST") (js "env") (Some (js "prod"))]
          acceptAll [])
     = Returned (Some (deploymentPayload deploymentEvent
         [tagRuleFor (js "HOST") (js "env") (Some (js "prod"))])) /\
   sendEvent sketchStringify exampleUrl
     (getClient exampleToken (js "application/json")) deploymentEvent
     acceptAll []
   = (Returned tt,
      [ Info (js "Preparing a custom deployment event");
        Info (js "{deployment:CUSTOM_DEPLOYMENT}");
        Post (eventRequest sketchStringify exampleUrl exampleToken
                (deploymentPayload deploymentEvent
                   [tagRuleFor (js "HOST") (js "env")
                      (Some (js "prod"))])) ]) /\
   posts (snd (sendEvent sketchStringify exampleUrl
                 (getClient exampleToken (js "application/json"))
                 deploymentEvent acceptAll []))
   = [ eventRequest sketchStringify exampleUrl exampleToken
         (deploymentPayload deploymentEvent
            [tagRuleFor (js "HOST") (js "env") (Some (js "prod"))]) ]) /\
  (fst (preparePayload unknownEvent [] acceptAll []) = Returned None /\
   sendEvent sketchStringify exampleUrl
     (getClient exampleToken (js "application/json")) unknownEvent
     acceptAll []
   = (Returned tt, [Info (js "Unsupported event type!")]) /\
   fst (sendEvent sketchStringify exampleUrl
          (getClient exampleToken (js "application/json")) unknownEvent
          acceptAll []) = Returned tt /\
   posts (snd (sendEvent sketchStringify exampleUrl
                 (getClient exampleToken (js "application/json"))
                 unknownEvent acceptAll [])) = []).
Proof.
  pose proof (sendEvent_classification sketchStringify exampleUrl
                (getClient exampleToken (js "application/json"))) as H.
  split; [|split].
  - apply (proj1 (H infoEvent refuseFirst [])). left. reflexivity.
  - apply (proj1 (proj2 (H deploymentEvent acceptAll []))). reflexivity.
  - apply (proj2 (proj2 (H unknownEvent acceptAll []))).
    + intros [E|[E|[E|[E|[E|[]]]]]]; discriminate E.
    + discriminate.
Defined.

Lemma sendEvent_without_tags_witness :
  exists p,
    fst (preparePayload wrongEntityEvent
           (extractTagRules (tags wrongEntityEvent)) refuseFirst [])
      = Returned (Some p) /\
    tagRule (payloadAttachRules p) = [] /\
    fst (sendEvent sketchStringify exampleUrl
           (getClient exampleToken (js "application/json"))
           wrongEntityEvent refuseFirst []) = Returned tt /\
    posts (snd (sendEvent sketchStringify exampleUrl
                  (getClient exampleToken (js "application/json"))
                  wrongEntityEvent refuseFirst []))
      = posts [] ++
        [ {| client := getClient exampleToken (js "application/json");
             requestUrl := exampleUrl ++ js "/api/v1/events";
             data := sketchStringify p |} ].
Proof.
  apply (sendEvent_without_tags sketchStringify).
  - left. left. reflexivity.
  - right. reflexivity.
Defined.

(** Two events of which the first is refused: both are posted, and the
    error of the first is logged before the second is posted. *)
Example sendEvents_refused_then_accepted :
  snd (sendEvents sketchStringify exampleUrl exampleToken
         [wrongEntityEvent; infoEvent] refuseFirst [])
  = [ Info (js "Sending 2 events");
      Info (js "Preparing a standard event");
      Info (js "{standard:CUSTOM_INFO}");
      Post (eventRequest sketchStringify exampleUrl exampleToken
              (standardPayload wrongEntityEvent []));
      Error (JsError (js "HTTP request failed: Bad Request"));
      Info (js "Preparing a standard event");
      Info (js "{standard:CUSTOM_INFO}");
      Post (eventRequest sketchStringify exampleUrl exampleToken
              (standardPayload infoEvent [])) ].
Proof. reflexivity. Qed.

Lemma sendEvents_isolation_witness :
  exists mid',
    [ Error (JsError (js "HTTP request failed: Bad Request"));
      Info (js "Preparing a standard event");
      Info (js "{standard:CUSTOM_INFO}") ]
    = Error (JsError (js "HTTP request failed: Bad Request")) :: mid'.
Proof.
  apply (proj2 (sendEvents_isolation sketchStringify exampleUrl exampleToken
                  [wrongEntityEvent; infoEvent] refuseFirst)
           [ Info (js "Sending 2 events");
             Info (js "Preparing a standard event");
             Info (js "{standard:CUSTOM_INFO}") ]
           (eventRequest sketchStringify exampleUrl exampleToken
              (standardPayload wrongEntityEvent []))
           _
           (eventRequest sketchStringify exampleUrl exampleToken
              (standardPayload infoEvent []))
           []).
  - reflexivity.
  - reflexivity.
Defined.

(** The end-to-end example of the specification: one metric, a remote
    side answering 200. *)
Example sendMetrics_end_to_end :
  sendMetrics asciiToLowerCase exampleUrl exampleToken
    [ {| metric := js "a"; value := js "1"; dimensions := None |} ]
    acceptAll []
  = (Returned tt,
     [ Info (js "Sending 1 metrics");
       Info (js "a 1" ++ newline);
       Post {| client := getClient exampleToken (js "text/plain");
               requestUrl := exampleUrl ++ js "/api/v2/metrics/ingest";
               data := js "a 1" ++ newline |} ]).
Proof. reflexivity. Qed.

(** A client that cannot connect: the error is logged, nothing is
    thrown. *)
Example sendMetrics_unreachable :
  sendMetrics asciiToLowerCase exampleUrl exampleToken [] unreachable []
  = (Returned tt,
     [ Info (js "Sending 0 metrics");
       Info [];
       Post {| client := getClient exampleToken (js "text/plain");
               requestUrl := exampleUrl ++ js "/api/v2/metrics/ingest";
               data := [] |};
       Error (JsError (js "connect ECONNREFUSED")) ]).
Proof. reflexivity. Qed.

(** ** More on the sanitizers and the samples *)

(** X4: on a name of ASCII characters the sanitizer works character by
    character: a capital is lowered, a character outside [[.0-9a-z_-]]
    becomes one underscore; so the length is kept, and names that differ
    in the case of their letters only get the same key. *)
Theorem safeMetricKey_ascii (toLowerCase : jsstring -> jsstring)
  (toLowerCase_ascii :
     forall s, Forall isAscii s -> toLowerCase s = map asciiLower s)
  (s : jsstring) :
  Forall isAscii s ->
  safeMetricKey toLowerCase s =
    map (fun c => if keyClass (asciiLower c) then asciiLower c else 95) s /\
  List.length (safeMetricKey toLowerCase s) = List.length s /\
  safeMetricKey toLowerCase (map asciiLower s) = safeMetricKey toLowerCase s.
Proof.
  intros Hs.
  assert (forall u, replaceOutside keyClassIgnoreCase underscore
                      (map asciiLower u) =
                    map (fun c => if keyClass (asciiLower c)
                                  then asciiLower c else 95) u) as Hmap.
  { induction u as [|c u IH]; [reflexivity|].
    unfold replaceOutside in *. cbn [map flat_map]. rewrite IH.
    unfold keyClassIgnoreCase. rewrite asciiLower_not_capital, orb_false_r.
    now destruct (keyClass (asciiLower c)). }
  assert (safeMetricKey toLowerCase s =
          map (fun c => if keyClass (asciiLower c) then asciiLower c else 95) s)
    as Heq by (unfold safeMetricKey; now rewrite toLowerCase_ascii, Hmap).
  split; [exact Heq|]. split.
  - now rewrite Heq, length_map.
  - rewrite Heq. unfold safeMetricKey.
    rewrite toLowerCase_ascii.
    + rewrite Hmap, map_map. apply map_ext. intros c.
      assert (asciiLower (asciiLower c) = asciiLower c) as ->; [|reflexivity].
      unfold asciiLower at 1. now rewrite asciiLower_not_capital.
    + apply Forall_forall. intros c Hin.
      apply in_map_iff in Hin as (c' & <- & Hin').
      rewrite Forall_forall in Hs. specialize (Hs c' Hin').
      unfold isAscii, asciiLower in *.
      destruct (isCapital c') eqn:E; [|exact Hs].
      unfold isCapital in E. apply andb_true_iff in E as [_ Hhi].
      apply N.leb_le in Hhi. lia.
Qed.

Lemma safeMetricKey_ascii_witness :
  safeMetricKey asciiToLowerCase (js "Build.Time") =
    map (fun c => if keyClass (asciiLower c) then asciiLower c else 95)
        (js "Build.Time") /\
  List.length (safeMetricKey asciiToLowerCase (js "Build.Time"))
    = List.length (js "Build.Time") /\
  safeMetricKey asciiToLowerCase (map asciiLower (js "Build.Time"))
    = safeMetricKey asciiToLowerCase (js "Build.Time").
Proof.
  apply (safeMetricKey_ascii asciiToLowerCase asciiToLowerCase_ascii).
  repeat (constructor; [reflexivity|]); constructor.
Defined.

Lemma safeMetricKey_valid_unchanged_witness :
  safeMetricKey asciiToLowerCase (js "github.build_total-1")
  = js "github.build_total-1".
Proof.
  apply (safeMetricKey_valid_unchanged asciiToLowerCase
           asciiToLowerCase_ascii).
  repeat (constructor; [reflexivity|]); constructor.
Defined.

Lemma metricLines_one_line_each_witness :
  lineEnds (metricLines asciiToLowerCase exampleMetrics)
  = List.length exampleMetrics.
Proof.
  apply (metricLines_one_line_each asciiToLowerCase
           asciiToLowerCase_no_capital).
  constructor; [|constructor]. split.
  - simpl. intros H. decompose [or] H; discriminate || contradiction.
  - repeat constructor; simpl; intros H;
      decompose [or] H; discriminate || contradiction.
Defined.

(** A value with a line end in it is copied as it is, and the text then
    has more lines than metrics. *)
Example metricLines_value_with_line_end :
  lineEnds (metricLines asciiToLowerCase
              [ {| metric := js "a"; value := js "1" ++ newline ++ js "b 2";
                   dimensions := None |} ]) = 2%nat.
Proof. reflexivity. Qed.

(** Two keys that differ only in characters outside the class get the
    same sanitized key, and both entries are written. *)
Example metricLines_colliding_keys :
  metricLines asciiToLowerCase
    [ {| metric := js "m"; value := js "1";
         dimensions := Some [ (js "a b", js "x"); (js "a_b", js "y") ] |} ]
  = js "m,a_b=" ++ dquote ++ js "x" ++ dquote
      ++ js ",a_b=" ++ dquote ++ js "y" ++ dquote ++ js " 1" ++ newline.
Proof. reflexivity. Qed.

Lemma extractTagRules_no_colon_witness :
  Forall (fun part => ~ In colon part)
    (ruleParts (tagRuleFor (js "HOST") (js "env") (Some (js "prod")))).
Proof.
  apply (extractTagRules_no_colon [js "HOST"; js "HOST:env:prod"]).
  left. reflexivity.
Defined.

(** Empty parts are parts: a tag that is one colon gives a rule with an
    empty match type and an empty key. *)
Example extractTagRules_empty_parts :
  extractTagRules (Some [js ":"; js "HOST:"; js "::"; js ""; js ":::"])
  = [ tagRuleFor [] [] None; tagRuleFor (js "HOST") [] None;
      tagRuleFor [] [] (Some []) ].
Proof. reflexivity. Qed.

Lemma sendEvent_posts_event_witness :
  exists p,
    fst (sendEvent sketchStringify exampleUrl
           (getClient exampleToken (js "application/json"))
           deploymentEvent unreachable []) = Returned tt /\
    posts (snd (sendEvent sketchStringify exampleUrl
                  (getClient exampleToken (js "application/json"))
                  deploymentEvent unreachable [])) =
      posts [] ++
        [ {| client := getClient exampleToken (js "application/json");
             requestUrl := exampleUrl ++ js "/api/v1/events";
             data := sketchStringify p |} ] /\
    payloadAttachRules p =
      {| entityIds := entities deploymentEvent;
         tagRule := extractTagRules (tags deploymentEvent) |} /\
    payloadCustomProperties p = eventDimensions deploymentEvent /\
    (p = standardPayload deploymentEvent
           (extractTagRules (tags deploymentEvent)) \/
     p = deploymentPayload deploymentEvent
           (extractTagRules (tags deploymentEvent))).
Proof.
  apply (sendEvent_posts_event sketchStringify). reflexivity.
Defined.

Lemma sendMetrics_accepted_witness :
  sendMetrics asciiToLowerCase exampleUrl exampleToken exampleMetrics
    acceptAll [] =
  (Returned tt,
   [ Info (js "Sending " ++ numberToString (List.length exampleMetrics)
             ++ js " metrics");
     Info (metricLines asciiToLowerCase exampleMetrics);
     Post {| client := getClient exampleToken (js "text/plain");
             requestUrl := exampleUrl ++ js "/api/v2/metrics/ingest";
             data := metricLines asciiToLowerCase exampleMetrics |} ]).
Proof.
  apply (sendMetrics_accepted asciiToLowerCase exampleUrl exampleToken
           exampleMetrics acceptAll
           {| statusCode := Some 200; statusMessage := Some (js "OK") |} 200).
  - reflexivity.
  - reflexivity.
  - reflexivity.
Defined.

(** Three events, one of an unsupported type, and a client that cannot
    connect: two requests, each followed by its error. *)
Example sendEvents_unreachable :
  snd (sendEvents sketchStringify exampleUrl exampleToken
         [infoEvent; unknownEvent; deploymentEvent] unreachable [])
  = [ Info (js "Sending 3 events");
      Info (js "Preparing a standard event");
      Info (js "{standard:CUSTOM_INFO}");
      Post (eventRequest sketchStringify exampleUrl exampleToken
              (standardPayload infoEvent []));
      Error (JsError (js "connect ECONNREFUSED"));
      Info (js "Unsupported event type!");
      Info (js "Preparing a custom deployment event");
      Info (js "{deployment:CUSTOM_DEPLOYMENT}");
      Post (eventRequest sketchStringify exampleUrl exampleToken
              (deploymentPayload deploymentEvent
                 [tagRuleFor (js "HOST") (js "env") (Some (js "prod"))]));
      Error (JsError (js "connect ECONNREFUSED")) ].
Proof. reflexivity. Qed.
